(** * CSpxHttpAudioStreamSession and the USP transport error taxonomy

    A shallow embedding of [http_audio_stream_session.cpp] and of the
    declarations of [source/core/usp/transport.h].

    The session's member functions become functions on an explicit [Session]
    record.  A C++ exception is an outcome [Throw], undefined behaviour (the
    unguarded division of [FromBytesToMilisecond]) is the outcome
    [Undefined].  The promise behind [m_audioIsDone] lives in a store that is
    indexed by the identity of the shared state, so that the future held by
    the waiting body and the member [m_audioIsDone] can alias it.  Calls into
    the collaborators (pump, codec adapter, engine adapter, thread service)
    are recorded, in order, in the ghost field [trace]. *)

From Stdlib Require Import ZArith Ascii String List Bool Lia.
From stdpp Require Import base option list strings gmap.

Local Open Scope string_scope.
Local Open Scope Z_scope.

(** ** transport.h *)

Module Transport.

(** [typedef enum _TransportError]. *)
Inductive TransportError : Type :=
| TRANSPORT_ERROR_UNKNOWN
| TRANSPORT_ERROR_REMOTE_CLOSED
| TRANSPORT_ERROR_CONNECTION_FAILURE
| TRANSPORT_ERROR_WEBSOCKET_UPGRADE
| TRANSPORT_ERROR_WEBSOCKET_SEND_FRAME
| TRANSPORT_ERROR_WEBSOCKET_ERROR
| TRANSPORT_ERROR_DNS_FAILURE.

(** The integer an enumerator stands for: none has an initialiser, so they
    count up from zero in declaration order. *)
Definition enum_value (e : TransportError) : Z :=
  match e with
  | TRANSPORT_ERROR_UNKNOWN => 0
  | TRANSPORT_ERROR_REMOTE_CLOSED => 1
  | TRANSPORT_ERROR_CONNECTION_FAILURE => 2
  | TRANSPORT_ERROR_WEBSOCKET_UPGRADE => 3
  | TRANSPORT_ERROR_WEBSOCKET_SEND_FRAME => 4
  | TRANSPORT_ERROR_WEBSOCKET_ERROR => 5
  | TRANSPORT_ERROR_DNS_FAILURE => 6
  end.

(** The enumerators in declaration order. *)
Definition enumerators : list TransportError :=
  [ TRANSPORT_ERROR_UNKNOWN; TRANSPORT_ERROR_REMOTE_CLOSED;
    TRANSPORT_ERROR_CONNECTION_FAILURE; TRANSPORT_ERROR_WEBSOCKET_UPGRADE;
    TRANSPORT_ERROR_WEBSOCKET_SEND_FRAME; TRANSPORT_ERROR_WEBSOCKET_ERROR;
    TRANSPORT_ERROR_DNS_FAILURE ].




End Transport.

(** ** Fixed-width arithmetic and [std::stoi] *)

Definition UINT16_MOD : Z := 2 ^ 16.
Definition UINT32_MOD : Z := 2 ^ 32.
Definition UINT64_MOD : Z := 2 ^ 64.
Definition INT_MIN : Z := - 2 ^ 31.
Definition INT_MAX : Z := 2 ^ 31 - 1.

Definition to_uint16 (z : Z) : Z := z mod UINT16_MOD.
Definition to_uint32 (z : Z) : Z := z mod UINT32_MOD.

(** The two exceptions [std::stoi] raises; both derive from
    [std::logic_error]. *)
Inductive StoiError : Type := invalid_argument | out_of_range.

(** [isspace] in the C locale. *)
Definition isspace (c : ascii) : bool :=
  let n := nat_of_ascii c in
  (n =? 32)%nat || ((9 <=? n)%nat && (n <=? 13)%nat).

Definition digit_of (c : ascii) : option Z :=
  let n := Z.of_nat (nat_of_ascii c) in
  if (48 <=? n) && (n <=? 57) then Some (n - 48) else None.

Fixpoint skip_space (s : string) : string :=
  match s with
  | String c r => if isspace c then skip_space r else s
  | EmptyString => s
  end.

(** The longest run of decimal digits at the front of [s], as a number. *)
Fixpoint read_digits (acc : Z) (s : string) : Z :=
  match s with
  | String c r =>
      match digit_of c with
      | Some d => read_digits (acc * 10 + d) r
      | None => acc
      end
  | EmptyString => acc
  end.

Definition starts_with_digit (s : string) : bool :=
  match s with
  | String c _ => match digit_of c with Some _ => true | None => false end
  | EmptyString => false
  end.

(** [std::stoi(str)] with base 10: leading white space is skipped, one sign is
    accepted, the digits that follow are converted and whatever comes after
    them is ignored.  No digit at all is [invalid_argument], a value that does
    not fit an [int] is [out_of_range]. *)
Definition stoi (str : string) : StoiError + Z :=
  let s1 := skip_space str in
  let '(neg, s2) :=
    match s1 with
    | String "-" r => (true, r)
    | String "+" r => (false, r)
    | _ => (false, s1)
    end in
  if starts_with_digit s2 then
    let v := read_digits 0 s2 in
    let v := if neg then - v else v in
    if (INT_MIN <=? v) && (v <=? INT_MAX) then inr v else inl out_of_range
  else inl invalid_argument.

(** ** The collaborators of the session, at their interface *)

(** [SPXWAVEFORMATEX]. *)
Record WAVEFORMATEX : Type := {
  wFormatTag : Z;
  nChannels : Z;
  nSamplesPerSec : Z;
  nAvgBytesPerSec : Z;
  nBlockAlign : Z;
  wBitsPerSample : Z;
  cbSize : Z
}.

Definition WAVE_FORMAT_PCM : Z := 1.

(** A [DataChunk]: the buffer and its [size] in bytes ([uint32_t]). *)
Record DataChunk : Type := {
  data : list Z;
  size : Z
}.

(** A recognition result, as [InitFinalResult], [InitErrorResult] (from
    [ErrorInfo::FromRuntimeMessage]) or [InitEndOfStreamResult] makes it. *)
Inductive RecognitionResult : Type :=
| FinalResult (reason : Z) (text : string) (offset duration : Z)
| ErrorResult (message : string)
| EndOfStreamResult.

Definition CreateErrorResult (message : string) : RecognitionResult :=
  ErrorResult message.

(** Modelled from the spec: [ISpxAudioPump::State] is declared outside the
    sources at hand; the specification gives the pump the states Idle,
    Processing and Stopped, and has a stopped pump go back to Idle.  The code
    only ever compares against [Processing]. *)
Inductive PumpState : Type := Idle | Processing | Stopped.

Definition is_Processing (st : PumpState) : bool :=
  match st with Processing => true | _ => false end.

(** Where a pump reads from. *)
Inductive Reader : Type := StreamReader | CodecReader.

Inductive PumpSource : Type :=
| CSpxWavFilePump (filename : string)
| CSpxInteractiveMicrophone
| CSpxAudioPump (reader : Reader).

Record AudioPump : Type := {
  pump_source : PumpSource;
  pump_state : PumpState;
  pump_format : WAVEFORMATEX
}.

Definition with_state (st : PumpState) (p : AudioPump) : AudioPump :=
  {| pump_source := pump_source p; pump_state := st;
     pump_format := pump_format p |}.

(** The codec adapter remembers the output format it was given. *)
Record CodecAdapter : Type := { codec_format : WAVEFORMATEX }.

Inductive RecoEngineAdapter : Type := CSpxHttpRecoEngineAdapter.
Inductive Site : Type := SpeechApiFactory.
Inductive VoiceProfileType : Type :=
  TextIndependentIdentification | TextDependentVerification
| TextIndependentVerification.

(** A stream handed to [InitFromStream]: its declared format. *)
Record AudioStream : Type := { stream_format : WAVEFORMATEX }.

(** Calls that leave the session, in the order they are made. *)
Inductive Action : Type :=
| PumpOpen (filename : string)
| PumpSetReader (reader : Reader)
| PumpStartPump
| PumpStopPump
| PumpTerm
| CodecSetFormat (format : WAVEFORMATEX)
| CodecClose
| CodecTerm
| RecoSetFormat (format : WAVEFORMATEX) (type : VoiceProfileType)
    (profileIds : list string) (enroll : bool)
| RecoProcessAudio (chunk : DataChunk)
| RecoFlushAudio
| RecoGetResult
| RecoTerm
| FactoryTerm
| ThreadServiceTerm
| PromiseSetValue (promise : nat) (result : RecognitionResult).

(** ** Exceptions *)

Inductive HR : Type :=
| SPXERR_ALREADY_INITIALIZED
| SPXERR_GSTREAMER_NOT_FOUND_ERROR
| SPXERR_RUNTIME_ERROR
| SPXERR_FILE_OPEN_FAILED.

Inductive Exception : Type :=
| ExceptionWithCallStack (hr : HR)
| logic_error (what : string)
| future_error_promise_already_satisfied.

(** ** The session *)

(** The members of [CSpxHttpAudioStreamSession].  [m_threadService] is set by
    [Init] and never cleared, so it is not a field.  The last four fields are
    not members: [promises] is the store of the shared states that
    [m_audioIsDone] and the futures point into ([None]: no value yet),
    [properties] is what [GetStringValue] reads, [trace] the calls made so far
    and [clock] the time in milliseconds. *)
Record Session : Type := {
  m_keepFactoryAlive : option Site;
  m_audioPump : option AudioPump;
  m_codecAdapter : option CodecAdapter;
  m_reco : option RecoEngineAdapter;
  m_audioIsDone : option nat;
  m_fromMicrophone : bool;
  m_avgBytesPerSecond : Z;
  m_totalAudioinMS : Z;
  m_microphoneTimeoutInMS : Z;
  promises : list (option RecognitionResult);
  properties : gmap string string;
  trace : list Action;
  clock : Z
}.

Definition set_keepFactoryAlive (v : option Site) (s : Session) : Session :=
  {| m_keepFactoryAlive := v; m_audioPump := m_audioPump s;
     m_codecAdapter := m_codecAdapter s; m_reco := m_reco s;
     m_audioIsDone := m_audioIsDone s; m_fromMicrophone := m_fromMicrophone s;
     m_avgBytesPerSecond := m_avgBytesPerSecond s;
     m_totalAudioinMS := m_totalAudioinMS s;
     m_microphoneTimeoutInMS := m_microphoneTimeoutInMS s;
     promises := promises s; properties := properties s; trace := trace s;
     clock := clock s |}.

Definition set_audioPump (v : option AudioPump) (s : Session) : Session :=
  {| m_keepFactoryAlive := m_keepFactoryAlive s; m_audioPump := v;
     m_codecAdapter := m_codecAdapter s; m_reco := m_reco s;
     m_audioIsDone := m_audioIsDone s; m_fromMicrophone := m_fromMicrophone s;
     m_avgBytesPerSecond := m_avgBytesPerSecond s;
     m_totalAudioinMS := m_totalAudioinMS s;
     m_microphoneTimeoutInMS := m_microphoneTimeoutInMS s;
     promises := promises s; properties := properties s; trace := trace s;
     clock := clock s |}.

Definition set_codecAdapter (v : option CodecAdapter) (s : Session) : Session :=
  {| m_keepFactoryAlive := m_keepFactoryAlive s; m_audioPump := m_audioPump s;
     m_codecAdapter := v; m_reco := m_reco s;
     m_audioIsDone := m_audioIsDone s; m_fromMicrophone := m_fromMicrophone s;
     m_avgBytesPerSecond := m_avgBytesPerSecond s;
     m_totalAudioinMS := m_totalAudioinMS s;
     m_microphoneTimeoutInMS := m_microphoneTimeoutInMS s;
     promises := promises s; properties := properties s; trace := trace s;
     clock := clock s |}.

Definition set_reco (v : option RecoEngineAdapter) (s : Session) : Session :=
  {| m_keepFactoryAlive := m_keepFactoryAlive s; m_audioPump := m_audioPump s;
     m_codecAdapter := m_codecAdapter s; m_reco := v;
     m_audioIsDone := m_audioIsDone s; m_fromMicrophone := m_fromMicrophone s;
     m_avgBytesPerSecond := m_avgBytesPerSecond s;
     m_totalAudioinMS := m_totalAudioinMS s;
     m_microphoneTimeoutInMS := m_microphoneTimeoutInMS s;
     promises := promises s; properties := properties s; trace := trace s;
     clock := clock s |}.

Definition set_audioIsDone (v : option nat) (s : Session) : Session :=
  {| m_keepFactoryAlive := m_keepFactoryAlive s; m_audioPump := m_audioPump s;
     m_codecAdapter := m_codecAdapter s; m_reco := m_reco s;
     m_audioIsDone := v; m_fromMicrophone := m_fromMicrophone s;
     m_avgBytesPerSecond := m_avgBytesPerSecond s;
     m_totalAudioinMS := m_totalAudioinMS s;
     m_microphoneTimeoutInMS := m_microphoneTimeoutInMS s;
     promises := promises s; properties := properties s; trace := trace s;
     clock := clock s |}.

Definition set_fromMicrophone (v : bool) (s : Session) : Session :=
  {| m_keepFactoryAlive := m_keepFactoryAlive s; m_audioPump := m_audioPump s;
     m_codecAdapter := m_codecAdapter s; m_reco := m_reco s;
     m_audioIsDone := m_audioIsDone s; m_fromMicrophone := v;
     m_avgBytesPerSecond := m_avgBytesPerSecond s;
     m_totalAudioinMS := m_totalAudioinMS s;
     m_microphoneTimeoutInMS := m_microphoneTimeoutInMS s;
     promises := promises s; properties := properties s; trace := trace s;
     clock := clock s |}.

Definition set_avgBytesPerSecond (v : Z) (s : Session) : Session :=
  {| m_keepFactoryAlive := m_keepFactoryAlive s; m_audioPump := m_audioPump s;
     m_codecAdapter := m_codecAdapter s; m_reco := m_reco s;
     m_audioIsDone := m_audioIsDone s; m_fromMicrophone := m_fromMicrophone s;
     m_avgBytesPerSecond := v;
     m_totalAudioinMS := m_totalAudioinMS s;
     m_microphoneTimeoutInMS := m_microphoneTimeoutInMS s;
     promises := promises s; properties := properties s; trace := trace s;
     clock := clock s |}.

Definition set_totalAudioinMS (v : Z) (s : Session) : Session :=
  {| m_keepFactoryAlive := m_keepFactoryAlive s; m_audioPump := m_audioPump s;
     m_codecAdapter := m_codecAdapter s; m_reco := m_reco s;
     m_audioIsDone := m_audioIsDone s; m_fromMicrophone := m_fromMicrophone s;
     m_avgBytesPerSecond := m_avgBytesPerSecond s;
     m_totalAudioinMS := v;
     m_microphoneTimeoutInMS := m_microphoneTimeoutInMS s;
     promises := promises s; properties := properties s; trace := trace s;
     clock := clock s |}.

Definition set_microphoneTimeoutInMS (v : Z) (s : Session) : Session :=
  {| m_keepFactoryAlive := m_keepFactoryAlive s; m_audioPump := m_audioPump s;
     m_codecAdapter := m_codecAdapter s; m_reco := m_reco s;
     m_audioIsDone := m_audioIsDone s; m_fromMicrophone := m_fromMicrophone s;
     m_avgBytesPerSecond := m_avgBytesPerSecond s;
     m_totalAudioinMS := m_totalAudioinMS s;
     m_microphoneTimeoutInMS := v;
     promises := promises s; properties := properties s; trace := trace s;
     clock := clock s |}.

Definition set_promises (v : list (option RecognitionResult)) (s : Session)
  : Session :=
  {| m_keepFactoryAlive := m_keepFactoryAlive s; m_audioPump := m_audioPump s;
     m_codecAdapter := m_codecAdapter s; m_reco := m_reco s;
     m_audioIsDone := m_audioIsDone s; m_fromMicrophone := m_fromMicrophone s;
     m_avgBytesPerSecond := m_avgBytesPerSecond s;
     m_totalAudioinMS := m_totalAudioinMS s;
     m_microphoneTimeoutInMS := m_microphoneTimeoutInMS s;
     promises := v; properties := properties s; trace := trace s;
     clock := clock s |}.

Definition set_clock (v : Z) (s : Session) : Session :=
  {| m_keepFactoryAlive := m_keepFactoryAlive s; m_audioPump := m_audioPump s;
     m_codecAdapter := m_codecAdapter s; m_reco := m_reco s;
     m_audioIsDone := m_audioIsDone s; m_fromMicrophone := m_fromMicrophone s;
     m_avgBytesPerSecond := m_avgBytesPerSecond s;
     m_totalAudioinMS := m_totalAudioinMS s;
     m_microphoneTimeoutInMS := m_microphoneTimeoutInMS s;
     promises := promises s; properties := properties s; trace := trace s;
     clock := v |}.

(** Append one call to the trace. *)
Definition log (a : Action) (s : Session) : Session :=
  {| m_keepFactoryAlive := m_keepFactoryAlive s; m_audioPump := m_audioPump s;
     m_codecAdapter := m_codecAdapter s; m_reco := m_reco s;
     m_audioIsDone := m_audioIsDone s; m_fromMicrophone := m_fromMicrophone s;
     m_avgBytesPerSecond := m_avgBytesPerSecond s;
     m_totalAudioinMS := m_totalAudioinMS s;
     m_microphoneTimeoutInMS := m_microphoneTimeoutInMS s;
     promises := promises s; properties := properties s;
     trace := trace s ++ [a]; clock := clock s |}.

(** ** Outcomes of a member function *)

Inductive Outcome (A : Type) : Type :=
| Ok (a : A) (s : Session)
| Throw (e : Exception) (s : Session)
| Undefined.

Arguments Ok {A} a s.
Arguments Throw {A} e s.
Arguments Undefined {A}.

Definition M (A : Type) : Type := Session -> Outcome A.

Definition ret {A : Type} (a : A) : M A := fun s => Ok a s.

Definition bind {A B : Type} (m : M A) (f : A -> M B) : M B :=
  fun s =>
    match m s with
    | Ok a s' => f a s'
    | Throw e s' => Throw e s'
    | Undefined => Undefined
    end.

Definition throw {A : Type} (e : Exception) : M A := fun s => Throw e s.

(** Run a step that cannot fail. *)
Definition modify (f : Session -> Session) : M unit := fun s => Ok tt (f s).

Notation "x <- m ;; k" := (bind m (fun x => k))
  (at level 100, m at next level, right associativity).
Notation "m ;;; k" := (bind m (fun _ => k))
  (at level 100, right associativity).

(** ** Named properties *)

(** Modelled from the spec: [GetStringValue] is inherited from the property
    interface, which is outside the sources at hand; it is "a named-property
    lookup providing string-valued overrides, always read with a documented
    default". *)
Definition GetStringValue (name defaultValue : string) (s : Session) : string :=
  default defaultValue (properties s !! name).

(** The text of [e.what()] for an exception of [std::stoi]; libstdc++ names the
    function that failed. *)
Definition stoi_what (e : StoiError) : string := "stoi".

(** ** The width of the duration counter *)

(** The declaration of [m_totalAudioinMS] is in [http_audio_stream_session.h],
    which is outside the sources at hand; the counter takes what
    [FromBytesToMilisecond] returns, so it is an unsigned integer of 32 or of
    64 bits, and every statement below is made for both. *)
Inductive CounterType : Type := counter_uint32 | counter_uint64.

Definition counter_modulus (ct : CounterType) : Z :=
  match ct with
  | counter_uint32 => UINT32_MOD
  | counter_uint64 => UINT64_MOD
  end.

(** [m_totalAudioinMS += d]. *)
Definition counter_add (ct : CounterType) (total d : Z) : Z :=
  (total + d) mod counter_modulus ct.

(** [m_totalAudioinMS >= m_microphoneTimeoutInMS.count()], where [count()] is a
    signed 64-bit integer: a 32-bit counter is promoted to it, against a
    64-bit counter it is converted to unsigned. *)
Definition counter_reached (ct : CounterType) (total timeout : Z) : bool :=
  match ct with
  | counter_uint32 => timeout <=? total
  | counter_uint64 => timeout mod UINT64_MOD <=? total
  end.

(** What the pump thread may call on the session while a cycle runs. *)
Inductive Callback : Type :=
| CbSetFormat (pformat : option WAVEFORMATEX)
| CbProcessAudio (audioChunk : DataChunk)
| CbError (msg : string).

Inductive future_status : Type := ready | timeout.

Definition MICROPHONE_TIMEOUT_PROPERTY : string :=
  "SPEECH-MicrophoneTimeoutInSpeakerRecognitionInMilliseconds".

(** [(milliseconds)1min]. *)
Definition ONE_MINUTE_MS : Z := 60000.

(** The format a wave-file pump has before a file was opened. *)
Definition empty_format : WAVEFORMATEX :=
  {| wFormatTag := 0; nChannels := 0; nSamplesPerSec := 0;
     nAvgBytesPerSec := 0; nBlockAlign := 0; wBitsPerSample := 0;
     cbSize := 0 |}.

Definition with_output_format (channels bits rate : Z) (w : WAVEFORMATEX)
  : WAVEFORMATEX :=
  {| wFormatTag := wFormatTag w; nChannels := channels;
     nSamplesPerSec := rate; nAvgBytesPerSec := nAvgBytesPerSec w;
     nBlockAlign := nBlockAlign w; wBitsPerSample := bits;
     cbSize := cbSize w |}.

(** ** The member functions *)

Section HttpAudioStreamSession.

(** The result the service has for the engine adapter's [GetResult], given the
    calls made so far. *)
Variable engine_result : list Action -> RecognitionResult.

Variable counter : CounterType.

(** [Init]. *)
Definition Init (site : Site) (s : Session) : Session :=
  set_fromMicrophone false (set_keepFactoryAlive (Some site) s).

(** [m_audioIsDone = std::make_shared<std::promise<...>>()] and
    [get_future()]: a new shared state, which the member and the returned
    future both point to. *)
Definition make_promise : M nat :=
  fun s =>
    let p := length (promises s) in
    Ok p (set_audioIsDone (Some p) (set_promises (promises s ++ [None]) s)).

(** [promise::set_value]: a second value is refused with
    [std::future_error] ([promise_already_satisfied]). *)
Definition set_value (p : nat) (result : RecognitionResult) : M unit :=
  fun s =>
    match promises s !! p with
    | Some None =>
        Ok tt (log (PromiseSetValue p result)
                 (set_promises (<[p := Some result]> (promises s)) s))
    | Some (Some _) => Throw future_error_promise_already_satisfied s
    | None => Undefined
    end.

(** [future::get] on a future that is ready. *)
Definition future_get (p : nat) : M RecognitionResult :=
  fun s =>
    match promises s !! p with
    | Some (Some v) => Ok v s
    | _ => Undefined
    end.

(** [SpxTermAndClear]: terminate the object, if there is one. *)
Definition term_if {A : Type} (o : option A) (a : Action) (s : Session)
  : Session :=
  match o with
  | Some _ => log a s
  | None => s
  end.

(** [Error]. *)
Definition Error (msg : string) : M unit :=
  fun s =>
    let result := CreateErrorResult msg in
    let audioIsDone := m_audioIsDone s in
    match audioIsDone with
    | Some p => set_value p result s
    | None => Ok tt s
    end.

(** [SetFormat]. *)
Definition SetFormat (pformat : option WAVEFORMATEX) : M unit :=
  fun s =>
    match m_reco s with
    | None => Throw (ExceptionWithCallStack SPXERR_RUNTIME_ERROR) s
    | Some _ =>
        let s :=
          match pformat with
          | Some f => set_avgBytesPerSecond (nAvgBytesPerSec f) s
          | None => s
          end in
        match pformat, m_audioIsDone s with
        | None, Some _ =>
            let s := log RecoFlushAudio s in
            let result := engine_result (trace s) in
            let s := log RecoGetResult s in
            match m_audioIsDone s with
            | Some p =>
                (set_value p result ;;; modify (set_audioIsDone None)) s
            | None => Ok tt s
            end
        | _, _ => Ok tt s
        end
    end.

(** [FromBytesToMilisecond]: the product wraps at 32 bits; dividing by zero
    has no defined result. *)
Definition FromBytesToMilisecond (bytes bytesPerSecond : Z) : option Z :=
  if bytesPerSecond =? 0 then None
  else Some (to_uint32 (bytes * 1000) / bytesPerSecond).

(** [ProcessAudio]. *)
Definition ProcessAudio (audioChunk : DataChunk) : M unit :=
  fun s =>
    match m_reco s with
    | None => Throw (ExceptionWithCallStack SPXERR_RUNTIME_ERROR) s
    | Some _ =>
        let s := log (RecoProcessAudio audioChunk) s in
        if m_fromMicrophone s then
          match FromBytesToMilisecond (size audioChunk)
                  (m_avgBytesPerSecond s) with
          | None => Undefined
          | Some d =>
              let s :=
                set_totalAudioinMS
                  (counter_add counter (m_totalAudioinMS s) d) s in
              if counter_reached counter (m_totalAudioinMS s)
                   (m_microphoneTimeoutInMS s)
              then SetFormat None s
              else Ok tt s
          end
        else Ok tt s
    end.

(** [StopPump]. *)
Definition StopPump (s : Session) : Session :=
  match m_audioPump s with
  | Some audioPump =>
      if is_Processing (pump_state audioPump)
      then log PumpStopPump (set_audioPump (Some (with_state Idle audioPump)) s)
      else s
  | None => s
  end.

(** [CleanupAfterEachAudioPumping]. *)
Definition CleanupAfterEachAudioPumping (s : Session) : Session :=
  let s := StopPump s in
  let s := term_if (m_audioPump s) PumpTerm s in
  let s := set_audioPump None s in
  let s := set_fromMicrophone false s in
  set_totalAudioinMS 0 s.

(** [GetMicrophoneTimeout]. *)
Definition GetMicrophoneTimeout : M Z :=
  fun s =>
    let valueFromUser := GetStringValue MICROPHONE_TIMEOUT_PROPERTY "0" s in
    if String.eqb valueFromUser "0" then Ok (m_microphoneTimeoutInMS s) s
    else
      match stoi valueFromUser with
      | inr v => Ok (to_uint32 v) s
      | inl e =>
          Throw (logic_error
                   ("error in parsing" ++ valueFromUser ++ stoi_what e)) s
      end.

(** [CreateTask]: the packaged task runs [func] and turns whatever it throws
    into a call of [Error] with the empty message.  [unset] is what the
    variables captured by reference hold when [func] did not finish. *)
Definition CreateTask {A : Type} (unset : A) (func : M A) : M A :=
  fun s =>
    match func s with
    | Ok a s' => Ok a s'
    | Throw _ s' => (Error EmptyString ;;; ret unset) s'
    | Undefined => Undefined
    end.

(** Modelled from the spec: the thread service is outside the sources at hand.
    [submit_async] "enqueues work and returns immediately"; tasks run one at
    a time in submission order, so the effect of the task on the session is
    taken at once, and a failure that escapes it stays in the task's unread
    future. *)
Definition ExecuteAsync (task : M unit) : M unit :=
  fun s =>
    match task s with
    | Ok _ s' => Ok tt s'
    | Throw _ s' => Ok tt s'
    | Undefined => Undefined
    end.

(** Modelled from the spec: [submit_sync] "blocks the calling thread until it
    completes, returning its result or re-raising its failure in the caller's
    context". *)
Definition ExecuteSync {A : Type} (task : M A) : M A := task.

(** The body of the task of [InitFromFile].  [file_format] is the format of
    the file when [Open] succeeds. *)
Definition InitFromFile_task (pszFileName : string)
    (file_format : option WAVEFORMATEX) : M unit :=
  fun s =>
    match m_audioPump s with
    | Some _ => Throw (ExceptionWithCallStack SPXERR_ALREADY_INITIALIZED) s
    | None =>
        let pump f :=
          {| pump_source := CSpxWavFilePump pszFileName; pump_state := Idle;
             pump_format := f |} in
        let s := log (PumpOpen pszFileName) s in
        match file_format with
        | Some f => Ok tt (set_audioPump (Some (pump f)) s)
        | None =>
            Throw (ExceptionWithCallStack SPXERR_FILE_OPEN_FAILED)
              (set_audioPump (Some (pump empty_format)) s)
        end
    end.

Definition InitFromFile (pszFileName : string)
    (file_format : option WAVEFORMATEX) : M unit :=
  ExecuteAsync (CreateTask tt (InitFromFile_task pszFileName file_format)).

(** The body of the task of [InitFromMicrophone]. *)
Definition InitFromMicrophone_task (microphone_format : WAVEFORMATEX)
  : M unit :=
  fun s =>
    match m_audioPump s with
    | Some _ => Throw (ExceptionWithCallStack SPXERR_ALREADY_INITIALIZED) s
    | None =>
        let pump :=
          {| pump_source := CSpxInteractiveMicrophone; pump_state := Idle;
             pump_format := microphone_format |} in
        Ok tt (set_fromMicrophone true (set_audioPump (Some pump) s))
    end.

Definition InitFromMicrophone (microphone_format : WAVEFORMATEX) : M unit :=
  ExecuteAsync (CreateTask tt (InitFromMicrophone_task microphone_format)).

(** The [try] block of [InitFromStream] and its handler: the three overrides
    are converted in turn, and the first one that [std::stoi] refuses sends
    all three fields to the defaults. *)
Definition output_format (waveformat : WAVEFORMATEX) (s : Session)
  : WAVEFORMATEX :=
  let numChannelsString := GetStringValue "OutputPCMChannelCount" "1" s in
  let numBitsPerSampleString :=
    GetStringValue "OutputPCMNumBitsPerSample" "16" s in
  let sampleRateString := GetStringValue "OutputPCMSamplerate" "16000" s in
  match stoi numChannelsString, stoi numBitsPerSampleString,
        stoi sampleRateString with
  | inr channels, inr bits, inr rate =>
      with_output_format (to_uint16 channels) (to_uint16 bits)
        (to_uint32 rate) waveformat
  | _, _, _ => with_output_format 1 16 16000 waveformat
  end.

(** The body of the task of [InitFromStream].  [codec_available] tells whether
    the codec adapter can be created. *)
Definition InitFromStream_task (stream : AudioStream) (codec_available : bool)
  : M unit :=
  fun s =>
    match m_audioPump s with
    | Some _ => Throw (ExceptionWithCallStack SPXERR_ALREADY_INITIALIZED) s
    | None =>
        let waveformat := stream_format stream in
        let attach (s : Session) : Outcome unit :=
          let reader :=
            match m_codecAdapter s with
            | None => StreamReader
            | Some _ => CodecReader
            end in
          let format :=
            match m_codecAdapter s with
            | None => waveformat
            | Some codec => codec_format codec
            end in
          let pump :=
            {| pump_source := CSpxAudioPump reader; pump_state := Idle;
               pump_format := format |} in
          Ok tt (log (PumpSetReader reader) (set_audioPump (Some pump) s)) in
        if wFormatTag waveformat =? WAVE_FORMAT_PCM then attach s
        else if codec_available then
          let waveformat := output_format waveformat s in
          let s :=
            set_codecAdapter (Some {| codec_format := waveformat |}) s in
          attach (log (CodecSetFormat waveformat) s)
        else
          Throw (ExceptionWithCallStack SPXERR_GSTREAMER_NOT_FOUND_ERROR)
            (set_codecAdapter None s)
    end.

Definition InitFromStream (stream : AudioStream) (codec_available : bool)
  : M unit :=
  ExecuteAsync (CreateTask tt (InitFromStream_task stream codec_available)).

(** [audioPump->StartPump(pISpxAudioProcessor)]. *)
Definition StartPump (s : Session) : Session :=
  match m_audioPump s with
  | Some audioPump =>
      log PumpStartPump (set_audioPump (Some (with_state Processing audioPump)) s)
  | None => s
  end.

Definition deliver (cb : Callback) : M unit :=
  match cb with
  | CbSetFormat pformat => SetFormat pformat
  | CbProcessAudio audioChunk => ProcessAudio audioChunk
  | CbError msg => Error msg
  end.

(** [future.wait_for(deadline)].  While the body waits, the pump thread makes
    its calls: [deliveries] lists them with the time, in milliseconds since the
    wait began, at which each is made.  The wait ends when the shared state
    holds a value, or at the deadline; a call that throws does so into the
    pump thread. *)
Fixpoint wait_for (future : nat) (start deadline : Z)
    (deliveries : list (Z * Callback)) (s : Session) : Outcome future_status :=
  match promises s !! future with
  | Some (Some _) => Ok ready s
  | _ =>
      match deliveries with
      | [] => Ok timeout (set_clock (start + Z.max 0 deadline) s)
      | (t, cb) :: rest =>
          if (0 <=? t) && (t <=? deadline) then
            match deliver cb (set_clock (start + t) s) with
            | Ok _ s' => wait_for future start deadline rest s'
            | Throw _ s' => wait_for future start deadline rest s'
            | Undefined => Undefined
            end
          else Ok timeout (set_clock (start + Z.max 0 deadline) s)
      end
  end.

Definition BAILED_OUT : string :=
  "Bailed out due to wait more than 1 minutes for the result of enrollment or speaker recognition.".

(** The body of the task of [StartStreamingAudioAndWaitForResult]; its value
    is the captured [result]. *)
Definition StartStreaming_task (enroll : bool) (type : VoiceProfileType)
    (profileIds : list string) (deliveries : list (Z * Callback))
  : M (option RecognitionResult) :=
  fun s =>
    let s :=
      match m_reco s with
      | None => set_reco (Some CSpxHttpRecoEngineAdapter) s
      | Some _ => s
      end in
    match m_audioPump s with
    | None => Ok (Some (CreateErrorResult "Error accessing audio pump")) s
    | Some audioPump =>
        let waveformat := pump_format audioPump in
        let s := log (RecoSetFormat waveformat type profileIds enroll) s in
        (t <- GetMicrophoneTimeout ;;
         modify (set_microphoneTimeoutInMS t) ;;;
         modify (set_totalAudioinMS 0) ;;;
         future <- make_promise ;;
         modify StartPump ;;;
         status <- (fun s => wait_for future (clock s) (t + ONE_MINUTE_MS)
                               deliveries s) ;;
         result <- match status with
                   | ready => future_get future
                   | timeout => ret (CreateErrorResult BAILED_OUT)
                   end ;;
         modify CleanupAfterEachAudioPumping ;;;
         ret (Some result)) s
    end.

(** [StartStreamingAudioAndWaitForResult]; [None] is the null result
    pointer. *)
Definition StartStreamingAudioAndWaitForResult (enroll : bool)
    (type : VoiceProfileType) (profileIds : list string)
    (deliveries : list (Z * Callback)) : M (option RecognitionResult) :=
  ExecuteSync
    (CreateTask None (StartStreaming_task enroll type profileIds deliveries)).

(** [Term]. *)
Definition Term : M unit :=
  fun s =>
    (match m_audioPump s with
     | Some audioPump =>
         if is_Processing (pump_state audioPump) then
           modify (fun s =>
                     log PumpStopPump
                       (set_audioPump (Some (with_state Idle audioPump)) s)) ;;;
           (fun s =>
              match m_audioIsDone s with
              | Some _ => Error "Terminate the http session." s
              | None => Ok tt s
              end)
         else ret tt
     | None => ret tt
     end ;;;
     modify (fun s => term_if (m_codecAdapter s) CodecClose s) ;;;
     modify (log ThreadServiceTerm) ;;;
     modify (fun s => set_audioPump None (term_if (m_audioPump s) PumpTerm s)) ;;;
     modify (fun s =>
               set_keepFactoryAlive None
                 (term_if (m_keepFactoryAlive s) FactoryTerm s)) ;;;
     modify (fun s =>
               set_codecAdapter None (term_if (m_codecAdapter s) CodecTerm s)) ;;;
     modify (fun s => set_reco None (term_if (m_reco s) RecoTerm s))) s.

End HttpAudioStreamSession.

(** The pump thread handing a run of chunks to [ProcessAudio], in order. *)
Fixpoint process_chunks (engine_result : list Action -> RecognitionResult)
    (counter : CounterType) (chunks : list DataChunk) : M unit :=
  match chunks with
  | [] => ret tt
  | audioChunk :: rest =>
      ProcessAudio engine_result counter audioChunk ;;;
      process_chunks engine_result counter rest
  end.

(** Whether the counter, run over [chunks] from [total] the way
    [ProcessAudio] does, reaches [timeout] after some chunk. *)
Fixpoint duration_reaches (counter : CounterType) (bytesPerSecond timeout : Z)
    (total : Z) (chunks : list DataChunk) : bool :=
  match chunks with
  | [] => false
  | audioChunk :: rest =>
      match FromBytesToMilisecond (size audioChunk) bytesPerSecond with
      | None => false
      | Some d =>
          let total := counter_add counter total d in
          counter_reached counter total timeout
          || duration_reaches counter bytesPerSecond timeout total rest
      end
  end.

(** The duration of a run of chunks as the specification words it, "derived
    from chunk byte length and the negotiated average bytes-per-second": the
    bytes of the run, in milliseconds at [bytesPerSecond]. *)
Definition spec_duration_ms (bytesPerSecond : Z) (chunks : list DataChunk) : Z :=
  fold_right (fun c total => size c + total) 0 chunks * 1000 / bytesPerSecond.

(** How many calls in a trace satisfy [f]. *)
Fixpoint count (f : Action -> bool) (tr : list Action) : nat :=
  match tr with
  | [] => 0%nat
  | a :: rest => ((if f a then 1 else 0) + count f rest)%nat
  end.

Definition is_flush (a : Action) : bool :=
  match a with RecoFlushAudio => true | _ => false end.

Definition is_set_value (a : Action) : bool :=
  match a with PromiseSetValue _ _ => true | _ => false end.

(** The member [m_audioIsDone], when set, points to a shared state. *)
Definition channel_valid (s : Session) : Prop :=
  match m_audioIsDone s with
  | Some p => is_Some (promises s !! p)
  | None => True
  end.

(** ** Sessions the channel has been resolved in *)

(** The session after [set_value] stored [r] in the shared state [p]. *)
Definition resolved (p : nat) (r : RecognitionResult) (s : Session) : Session :=
  log (PromiseSetValue p r) (set_promises (<[p := Some r]> (promises s)) s).

(** The session after the flush path of [SetFormat(nullptr)] ran on the open
    channel [p]. *)
Definition flushed (engine_result : list Action -> RecognitionResult)
    (p : nat) (s : Session) : Session :=
  set_audioIsDone None
    (resolved p (engine_result (trace s ++ [RecoFlushAudio])%list)
       (log RecoGetResult (log RecoFlushAudio s))).

(** The call [a], when the member [o] is set. *)
Definition action_if {A : Type} (o : option A) (a : Action) : list Action :=
  match o with
  | Some _ => [a]
  | None => []
  end.

(** The calls by which [Term] closes and releases what the session [s]
    owns, in the order of the code. *)
Definition release_actions (s : Session) : list Action :=
  action_if (m_codecAdapter s) CodecClose
  ++ [ThreadServiceTerm]
  ++ action_if (m_audioPump s) PumpTerm
  ++ action_if (m_keepFactoryAlive s) FactoryTerm
  ++ action_if (m_codecAdapter s) CodecTerm
  ++ action_if (m_reco s) RecoTerm.

(** The session at the point where the body of
    [StartStreamingAudioAndWaitForResult] reads the timeout: the engine
    adapter exists and has been given the format of [audioPump]. *)
Definition negotiated (enroll : bool) (type : VoiceProfileType)
    (profileIds : list string) (audioPump : AudioPump) (s : Session)
  : Session :=
  log (RecoSetFormat (pump_format audioPump) type profileIds enroll)
    (match m_reco s with
     | None => set_reco (Some CSpxHttpRecoEngineAdapter) s
     | Some _ => s
     end).

(** The session at the point where the body of the streaming call begins to
    wait: the timeout [t] is stored, the counter is zero, the channel of the
    cycle is the new shared state and the pump has been started. *)
Definition started (enroll : bool) (type : VoiceProfileType)
    (profileIds : list string) (audioPump : AudioPump) (t : Z) (s : Session)
  : Session :=
  let s := negotiated enroll type profileIds audioPump s in
  let s := set_totalAudioinMS 0 (set_microphoneTimeoutInMS t s) in
  StartPump
    (set_audioIsDone (Some (length (promises s)))
       (set_promises (promises s ++ [None]) s)).

(** What the calls of the pump thread leave as it is: they never touch the
    owned objects, the microphone flag, the properties or the clock; they keep
    the store of shared states at its size, and they leave the member
    [m_audioIsDone] alone or clear it. *)
Definition kept_by_callbacks (s s' : Session) : Prop :=
  m_reco s' = m_reco s
  /\ m_codecAdapter s' = m_codecAdapter s
  /\ m_audioPump s' = m_audioPump s
  /\ m_keepFactoryAlive s' = m_keepFactoryAlive s
  /\ m_fromMicrophone s' = m_fromMicrophone s
  /\ properties s' = properties s
  /\ clock s' = clock s
  /\ length (promises s') = length (promises s)
  /\ (m_audioIsDone s' = m_audioIsDone s \/ m_audioIsDone s' = None).

(** A call of the pump thread that, if it announces a format, announces one
    with a nonzero byte rate. *)
Definition announces_nonzero_rate (d : Z * Callback) : Prop :=
  match snd d with
  | CbSetFormat (Some f) => nAvgBytesPerSec f <> 0
  | _ => True
  end.

(** A source for which the duration accounting of [ProcessAudio] is defined
    throughout the calls [ds]: not the microphone, or a nonzero byte rate now
    and in every format announced. *)
Definition accounting_defined (ds : list (Z * Callback)) (s : Session) : Prop :=
  m_fromMicrophone s = false
  \/ (m_avgBytesPerSecond s <> 0 /\ Forall announces_nonzero_rate ds).

(** ** Sessions to run the code on *)

Definition pcm16 : WAVEFORMATEX :=
  {| wFormatTag := 1; nChannels := 1; nSamplesPerSec := 16000;
     nAvgBytesPerSec := 32000; nBlockAlign := 2; wBitsPerSample := 16;
     cbSize := 0 |}.

(** A compressed format (the tag is not [WAVE_FORMAT_PCM]). *)
Definition compressed : WAVEFORMATEX :=
  {| wFormatTag := 85; nChannels := 2; nSamplesPerSec := 44100;
     nAvgBytesPerSec := 16000; nBlockAlign := 1; wBitsPerSample := 0;
     cbSize := 0 |}.

(** A session after [Init], with [props] as its properties and a timeout
    member of five seconds. *)
Definition initial_session (props : gmap string string) : Session :=
  {| m_keepFactoryAlive := Some SpeechApiFactory; m_audioPump := None;
     m_codecAdapter := None; m_reco := None; m_audioIsDone := None;
     m_fromMicrophone := false; m_avgBytesPerSecond := 0;
     m_totalAudioinMS := 0; m_microphoneTimeoutInMS := 5000;
     promises := []; properties := props; trace := []; clock := 0 |}.

(** The service answers every flush with the same final result. *)
Definition recognized (tr : list Action) : RecognitionResult :=
  FinalResult 0 "recognized" 0 (Z.of_nat (length tr)).

(** A session in the middle of a microphone cycle: the engine adapter
    exists, the pump is processing and the channel of the cycle is open. *)
Definition mid_cycle : Session :=
  {| m_keepFactoryAlive := Some SpeechApiFactory;
     m_audioPump :=
       Some {| pump_source := CSpxInteractiveMicrophone;
               pump_state := Processing; pump_format := pcm16 |};
     m_codecAdapter := None; m_reco := Some CSpxHttpRecoEngineAdapter;
     m_audioIsDone := Some 0%nat; m_fromMicrophone := true;
     m_avgBytesPerSecond := 32000; m_totalAudioinMS := 0;
     m_microphoneTimeoutInMS := 5000; promises := [None]; properties := ∅;
     trace := []; clock := 0 |}.

(** A session that [InitFromMicrophone] gave a pump, before any cycle. *)
Definition microphone_session (props : gmap string string) : Session :=
  set_fromMicrophone true
    (set_audioPump
       (Some {| pump_source := CSpxInteractiveMicrophone; pump_state := Idle;
                pump_format := pcm16 |})
       (initial_session props)).

(** A session that [InitFromFile] gave a pump, with the engine adapter of an
    earlier cycle. *)
Definition file_session : Session :=
  set_reco (Some CSpxHttpRecoEngineAdapter)
    (set_audioPump
       (Some {| pump_source := CSpxWavFilePump "a.wav"; pump_state := Idle;
                pump_format := pcm16 |})
       (initial_session ∅)).

(** A session that [InitFromStream] gave a pump and a codec adapter, for a
    stream with a compressed format. *)
Definition codec_session : Session :=
  log (PumpSetReader CodecReader)
    (set_audioPump
       (Some {| pump_source := CSpxAudioPump CodecReader; pump_state := Idle;
                pump_format := with_output_format 1 16 16000 compressed |})
       (log (CodecSetFormat (with_output_format 1 16 16000 compressed))
          (set_codecAdapter
             (Some {| codec_format :=
                        with_output_format 1 16 16000 compressed |})
             (initial_session ∅)))).

Definition chunk_of (bytes : Z) : DataChunk := {| data := []; size := bytes |}.

(** One second of audio at 32000 bytes per second. *)
Definition one_second : DataChunk := chunk_of 32000.

(** The calls of a pump that announces its format, delivers a tenth of a
    second of audio and ends the stream. *)
Definition short_stream : list (Z * Callback) :=
  [ (100, CbSetFormat (Some pcm16));
    (200, CbProcessAudio (chunk_of 3200));
    (300, CbSetFormat None) ].

(** * Properties *)

(** ** [std::stoi] on concrete strings *)

Example stoi_16000 : stoi "16000" = inr 16000.
Proof. reflexivity. Qed.

Example stoi_prefix : stoi " -12ab" = inr (-12).
Proof. reflexivity. Qed.

Example stoi_letters : stoi "abc" = inl invalid_argument.
Proof. reflexivity. Qed.

Example stoi_too_big : stoi "4294967296" = inl out_of_range.
Proof. reflexivity. Qed.

(** ** The transport error taxonomy *)

Module TransportFacts.
Import Transport.

Lemma enumerators_complete (e : TransportError) : In e enumerators.
Proof. destruct e; simpl; tauto. Qed.

Lemma enum_value_inj (e1 e2 : TransportError) :
  enum_value e1 = enum_value e2 -> e1 = e2.
Proof. destruct e1, e2; simpl; intros H; try reflexivity; discriminate H. Qed.




End TransportFacts.

(** ** Reading the properties *)

Lemma GetStringValue_unset name dflt s :
  properties s !! name = None -> GetStringValue name dflt s = dflt.
Proof. unfold GetStringValue. intros ->. reflexivity. Qed.

Lemma GetStringValue_set name dflt v s :
  properties s !! name = Some v -> GetStringValue name dflt s = v.
Proof. unfold GetStringValue. intros ->. reflexivity. Qed.

Lemma eqb_zero_string (v : string) : String.eqb v "0" = false <-> v <> "0".
Proof. apply String.eqb_neq. Qed.

(** C10, as the code has it: the string ["0"], like an absent property, makes
    [GetMicrophoneTimeout] return the timeout member as it is; any other
    string that [std::stoi] reads as zero makes it return zero
    milliseconds. *)
Theorem C10_only_the_string_zero_is_not_configured (s : Session) :
  (properties s !! MICROPHONE_TIMEOUT_PROPERTY = Some "0"
   \/ properties s !! MICROPHONE_TIMEOUT_PROPERTY = None ->
   GetMicrophoneTimeout s = Ok (m_microphoneTimeoutInMS s) s)
  /\ (forall v : string,
        properties s !! MICROPHONE_TIMEOUT_PROPERTY = Some v ->
        v <> "0" -> stoi v = inr 0 ->
        GetMicrophoneTimeout s = Ok 0 s).
Proof.
  split.
  - intros [H | H]; unfold GetMicrophoneTimeout.
    + rewrite (GetStringValue_set _ _ _ _ H). reflexivity.
    + rewrite (GetStringValue_unset _ _ _ H). reflexivity.
  - intros v Hv Hne Hstoi. unfold GetMicrophoneTimeout.
    rewrite (GetStringValue_set _ _ _ _ Hv).
    apply eqb_zero_string in Hne. rewrite Hne, Hstoi. reflexivity.
Qed.

(** C10, as stated, fails: the property value ["00"] configures a timeout of
    zero milliseconds, here in place of a member of five seconds. *)
Lemma C10_double_zero_configures_zero :
  GetMicrophoneTimeout
    (initial_session {[ MICROPHONE_TIMEOUT_PROPERTY := "00" ]})
  = Ok 0 (initial_session {[ MICROPHONE_TIMEOUT_PROPERTY := "00" ]}).
Proof. vm_compute. reflexivity. Qed.

(** ** The pending-result channel *)

Section SessionFacts.

Variable engine_result : list Action -> RecognitionResult.
Variable counter : CounterType.

Local Abbreviation SetFormat := (SetFormat engine_result).
Local Abbreviation ProcessAudio := (ProcessAudio engine_result counter).
Local Abbreviation process_chunks := (process_chunks engine_result counter).
Local Abbreviation deliver := (deliver engine_result counter).
Local Abbreviation wait_for := (wait_for engine_result counter).
Local Abbreviation StartStreaming_task :=
  (StartStreaming_task engine_result counter).
Local Abbreviation flushed := (flushed engine_result).
Local Abbreviation StartStreamingAudioAndWaitForResult :=
  (StartStreamingAudioAndWaitForResult engine_result counter).

Lemma set_value_open p r s :
  promises s !! p = Some None -> set_value p r s = Ok tt (resolved p r s).
Proof. unfold set_value. intros ->. reflexivity. Qed.

Lemma set_value_twice p r r0 s :
  promises s !! p = Some (Some r0) ->
  set_value p r s = Throw future_error_promise_already_satisfied s.
Proof. unfold set_value. intros ->. reflexivity. Qed.

Lemma resolved_lookup p r s :
  promises s !! p = Some None -> promises (resolved p r s) !! p = Some (Some r).
Proof.
  intros H. simpl. apply list_lookup_insert_eq.
  apply lookup_lt_Some in H. exact H.
Qed.

Lemma Error_without_channel msg s :
  m_audioIsDone s = None -> Error msg s = Ok tt s.
Proof. unfold Error. intros ->. reflexivity. Qed.

Lemma Error_open msg p s :
  m_audioIsDone s = Some p -> promises s !! p = Some None ->
  Error msg s = Ok tt (resolved p (ErrorResult msg) s).
Proof. unfold Error. intros ->. apply set_value_open. Qed.

Lemma Error_twice msg p r0 s :
  m_audioIsDone s = Some p -> promises s !! p = Some (Some r0) ->
  Error msg s = Throw future_error_promise_already_satisfied s.
Proof. unfold Error. intros ->. apply set_value_twice. Qed.

Lemma SetFormat_null_open p s :
  m_reco s <> None -> m_audioIsDone s = Some p -> promises s !! p = Some None ->
  SetFormat None s = Ok tt (flushed p s).
Proof.
  intros Hreco Hp Hopen. unfold SetFormat.
  destruct (m_reco s); [|congruence].
  rewrite Hp. simpl. rewrite Hp. unfold bind.
  rewrite set_value_open by exact Hopen. reflexivity.
Qed.

Lemma SetFormat_null_without_channel s :
  m_reco s <> None -> m_audioIsDone s = None -> SetFormat None s = Ok tt s.
Proof.
  intros Hreco Hp. unfold SetFormat.
  destruct (m_reco s); [|congruence]. rewrite Hp. reflexivity.
Qed.

Lemma SetFormat_null_twice p r0 s :
  m_reco s <> None -> m_audioIsDone s = Some p ->
  promises s !! p = Some (Some r0) ->
  SetFormat None s
  = Throw future_error_promise_already_satisfied
      (log RecoGetResult (log RecoFlushAudio s)).
Proof.
  intros Hreco Hp Hres. unfold SetFormat.
  destruct (m_reco s); [|congruence].
  rewrite Hp. simpl. rewrite Hp. unfold bind.
  rewrite (set_value_twice _ _ r0) by exact Hres. reflexivity.
Qed.

Lemma SetFormat_some f s :
  m_reco s <> None ->
  SetFormat (Some f) s = Ok tt (set_avgBytesPerSecond (nAvgBytesPerSec f) s).
Proof.
  intros Hreco. unfold SetFormat. destruct (m_reco s); [|congruence].
  reflexivity.
Qed.

Lemma SetFormat_without_adapter pformat s :
  m_reco s = None ->
  SetFormat pformat s = Throw (ExceptionWithCallStack SPXERR_RUNTIME_ERROR) s.
Proof. unfold SetFormat. intros ->. reflexivity. Qed.

(** C1, where the code departs from it: once [Error] has resolved the open
    channel, the member still points to it, so the flush path of
    [SetFormat(nullptr)] flushes the engine adapter and then faults in
    [set_value] with [promise_already_satisfied]; a second [Error] faults
    the same way. *)
Theorem C1_flush_after_error_faults (s : Session) (p : nat) (msg : string) :
  m_reco s <> None -> m_audioIsDone s = Some p ->
  promises s !! p = Some None ->
  Error msg s = Ok tt (resolved p (ErrorResult msg) s)
  /\ m_audioIsDone (resolved p (ErrorResult msg) s) = Some p
  /\ SetFormat None (resolved p (ErrorResult msg) s)
     = Throw future_error_promise_already_satisfied
         (log RecoGetResult
            (log RecoFlushAudio (resolved p (ErrorResult msg) s)))
  /\ Error msg (resolved p (ErrorResult msg) s)
     = Throw future_error_promise_already_satisfied
         (resolved p (ErrorResult msg) s).
Proof.
  intros Hreco Hp Hopen.
  pose proof (resolved_lookup p (ErrorResult msg) s Hopen) as Hres.
  split; [apply Error_open; assumption|].
  split; [exact Hp|].
  split.
  - apply (SetFormat_null_twice p (ErrorResult msg)); assumption.
  - apply (Error_twice msg p (ErrorResult msg)); assumption.
Qed.

(** After the flush path of [SetFormat(nullptr)] resolved the channel, the
    member is cleared: a later [Error] and a later [SetFormat(nullptr)] leave
    the session as it is. *)
Lemma resolution_after_flush_is_noop (s : Session) (p : nat) (msg : string) :
  m_reco s <> None -> m_audioIsDone s = Some p ->
  promises s !! p = Some None ->
  SetFormat None s = Ok tt (flushed p s)
  /\ promises (flushed p s) !! p
     = Some (Some (engine_result (trace s ++ [RecoFlushAudio])%list))
  /\ Error msg (flushed p s) = Ok tt (flushed p s)
  /\ SetFormat None (flushed p s) = Ok tt (flushed p s).
Proof.
  intros Hreco Hp Hopen.
  split; [apply SetFormat_null_open; assumption|].
  split.
  - simpl. apply list_lookup_insert_eq. apply lookup_lt_Some in Hopen.
    exact Hopen.
  - split.
    + apply Error_without_channel. reflexivity.
    + apply SetFormat_null_without_channel; [exact Hreco | reflexivity].
Qed.

(** ** Duration accounting *)

Lemma set_value_defined p r s :
  is_Some (promises s !! p) -> set_value p r s <> Undefined.
Proof.
  intros [v Hv]. unfold set_value. rewrite Hv. destruct v; discriminate.
Qed.

Lemma Error_defined msg s : channel_valid s -> Error msg s <> Undefined.
Proof.
  unfold channel_valid, Error. destruct (m_audioIsDone s) as [p|].
  - apply set_value_defined.
  - discriminate.
Qed.

Lemma SetFormat_defined pformat s :
  channel_valid s -> SetFormat pformat s <> Undefined.
Proof.
  unfold channel_valid, SetFormat. intros Hv.
  destruct (m_reco s); [|discriminate].
  destruct pformat as [f|]; simpl.
  - destruct (m_audioIsDone s); discriminate.
  - destruct (m_audioIsDone s) as [p|]; [|discriminate].
    unfold bind. simpl.
    destruct Hv as [v Hv]. unfold set_value. simpl. rewrite Hv.
    destruct v; discriminate.
Qed.

(** The session in which [ProcessAudio] on a microphone cycle compares the
    counter with the timeout. *)
Lemma ProcessAudio_microphone chunk s :
  m_reco s <> None -> m_fromMicrophone s = true ->
  m_avgBytesPerSecond s <> 0 ->
  ProcessAudio chunk s
  = let s1 :=
      set_totalAudioinMS
        (counter_add counter (m_totalAudioinMS s)
           (to_uint32 (size chunk * 1000) / m_avgBytesPerSecond s))
        (log (RecoProcessAudio chunk) s) in
    if counter_reached counter (m_totalAudioinMS s1) (m_microphoneTimeoutInMS s)
    then SetFormat None s1 else Ok tt s1.
Proof.
  intros Hreco Hmic Havg. unfold ProcessAudio, FromBytesToMilisecond.
  destruct (m_reco s); [|congruence]. simpl. rewrite Hmic.
  apply Z.eqb_neq in Havg. rewrite Havg. reflexivity.
Qed.

(** C9: on a microphone cycle [ProcessAudio] divides the chunk's size, times
    1000 and wrapped at 32 bits, by [m_avgBytesPerSecond] without a guard.
    With a zero rate the call has no defined result; with a nonzero rate
    the quotient is added to the counter.  The rate is what the last
    [SetFormat] with a format recorded. *)
Theorem C9_duration_needs_nonzero_rate (s : Session) (chunk : DataChunk) :
  m_reco s <> None -> m_fromMicrophone s = true ->
  (m_avgBytesPerSecond s = 0 -> ProcessAudio chunk s = Undefined)
  /\ (m_avgBytesPerSecond s <> 0 ->
      FromBytesToMilisecond (size chunk) (m_avgBytesPerSecond s)
      = Some ((size chunk * 1000) mod 2 ^ 32 / m_avgBytesPerSecond s)
      /\ (channel_valid s -> ProcessAudio chunk s <> Undefined)
      /\ forall s' : Session,
           (ProcessAudio chunk s = Ok tt s'
            \/ exists e, ProcessAudio chunk s = Throw e s') ->
           m_totalAudioinMS s'
           = counter_add counter (m_totalAudioinMS s)
               ((size chunk * 1000) mod 2 ^ 32 / m_avgBytesPerSecond s))
  /\ (forall f : WAVEFORMATEX,
        SetFormat (Some f) s
        = Ok tt (set_avgBytesPerSecond (nAvgBytesPerSec f) s)).
Proof.
  intros Hreco Hmic. split; [|split].
  - intros Hz. unfold ProcessAudio, FromBytesToMilisecond.
    destruct (m_reco s); [|congruence]. simpl. rewrite Hmic, Hz. reflexivity.
  - intros Havg. split; [|split].
    + unfold FromBytesToMilisecond. apply Z.eqb_neq in Havg. rewrite Havg.
      reflexivity.
    + intros Hv. rewrite ProcessAudio_microphone by assumption. cbv zeta.
      match goal with |- context [if ?c then _ else _] => destruct c end;
        [|discriminate].
      apply SetFormat_defined. exact Hv.
    + intros s'. rewrite ProcessAudio_microphone by assumption. cbv zeta.
      match goal with |- context [if ?c then _ else _] => destruct c end.
      * unfold SetFormat. simpl. destruct (m_reco s); [|congruence].
        destruct (m_audioIsDone s) as [p|]; simpl.
        -- unfold bind, set_value, modify. simpl.
           destruct (promises s !! p) as [[r0|]|]; simpl;
             intros [H | [e H]]; try discriminate; inversion H; reflexivity.
        -- intros [H | [e H]]; try discriminate; inversion H; reflexivity.
      * intros [H | [e H]]; try discriminate; inversion H; reflexivity.
  - intros f. apply SetFormat_some. exact Hreco.
Qed.

(** ** Initialisation and the task boundary *)

Lemma ExecuteAsync_Error_never_throws msg s e s' :
  ExecuteAsync (Error msg) s <> Throw e s'.
Proof. unfold ExecuteAsync. destruct (Error msg s); discriminate. Qed.

Lemma CreateTask_of_throw {A : Type} (unset : A) (func : M A) e s s' :
  func s = Throw e s' ->
  CreateTask unset func s = (Error EmptyString ;;; ret unset) s'.
Proof. unfold CreateTask. intros ->. reflexivity. Qed.

Lemma ExecuteAsync_then_ret (m : M unit) s :
  ExecuteAsync (m ;;; ret tt) s = ExecuteAsync m s.
Proof.
  unfold ExecuteAsync, bind, ret. destruct (m s); reflexivity.
Qed.

(** C7, as the code has it: with a pump in place the body of each
    initialisation task throws [SPXERR_ALREADY_INITIALIZED] and changes
    nothing; the task boundary turns that into a call of [Error] with the
    empty message, and the initialisation call itself never throws.  [Error]
    resolves the channel if one is open and does nothing if there is none. *)
Theorem C7_already_initialized_goes_to_the_error_path
    (s : Session) (pump : AudioPump) :
  m_audioPump s = Some pump ->
  (forall f ff,
      InitFromFile_task f ff s
      = Throw (ExceptionWithCallStack SPXERR_ALREADY_INITIALIZED) s
      /\ InitFromFile f ff s = ExecuteAsync (Error EmptyString) s)
  /\ (forall mf,
      InitFromMicrophone_task mf s
      = Throw (ExceptionWithCallStack SPXERR_ALREADY_INITIALIZED) s
      /\ InitFromMicrophone mf s = ExecuteAsync (Error EmptyString) s)
  /\ (forall stream ca,
      InitFromStream_task stream ca s
      = Throw (ExceptionWithCallStack SPXERR_ALREADY_INITIALIZED) s
      /\ InitFromStream stream ca s = ExecuteAsync (Error EmptyString) s)
  /\ (forall e s', ExecuteAsync (Error EmptyString) s <> Throw e s')
  /\ (m_audioIsDone s = None -> ExecuteAsync (Error EmptyString) s = Ok tt s)
  /\ (forall p, m_audioIsDone s = Some p -> promises s !! p = Some None ->
      ExecuteAsync (Error EmptyString) s
      = Ok tt (resolved p (ErrorResult EmptyString) s)).
Proof.
  intros Hpump.
  assert (Hfile : forall f ff,
             InitFromFile_task f ff s
             = Throw (ExceptionWithCallStack SPXERR_ALREADY_INITIALIZED) s)
    by (intros; unfold InitFromFile_task; rewrite Hpump; reflexivity).
  assert (Hmic : forall mf,
             InitFromMicrophone_task mf s
             = Throw (ExceptionWithCallStack SPXERR_ALREADY_INITIALIZED) s)
    by (intros; unfold InitFromMicrophone_task; rewrite Hpump; reflexivity).
  assert (Hstream : forall stream ca,
             InitFromStream_task stream ca s
             = Throw (ExceptionWithCallStack SPXERR_ALREADY_INITIALIZED) s)
    by (intros; unfold InitFromStream_task; rewrite Hpump; reflexivity).
  repeat split.
  - apply Hfile.
  - unfold InitFromFile, ExecuteAsync.
    rewrite (CreateTask_of_throw _ _ _ _ _ (Hfile f ff)).
    unfold bind, ret. destruct (Error EmptyString s); reflexivity.
  - apply Hmic.
  - unfold InitFromMicrophone, ExecuteAsync.
    rewrite (CreateTask_of_throw _ _ _ _ _ (Hmic mf)).
    unfold bind, ret. destruct (Error EmptyString s); reflexivity.
  - apply Hstream.
  - unfold InitFromStream, ExecuteAsync.
    rewrite (CreateTask_of_throw _ _ _ _ _ (Hstream stream ca)).
    unfold bind, ret. destruct (Error EmptyString s); reflexivity.
  - intros e s'. apply ExecuteAsync_Error_never_throws.
  - intros Hnone. unfold ExecuteAsync.
    rewrite Error_without_channel by exact Hnone. reflexivity.
  - intros p Hp Hopen. unfold ExecuteAsync.
    rewrite (Error_open _ p) by assumption. reflexivity.
Qed.

(** C7, as stated, fails: on a session that already has a pump, each of the
    three initialisation calls returns normally and leaves the session as it
    is; no already-initialized fault reaches the caller. *)
Lemma C7_no_fault_reaches_the_caller :
  InitFromMicrophone pcm16 (initial_session ∅)
  = Ok tt (microphone_session ∅)
  /\ InitFromFile "a.wav" (Some pcm16) (microphone_session ∅)
     = Ok tt (microphone_session ∅)
  /\ InitFromMicrophone pcm16 (microphone_session ∅)
     = Ok tt (microphone_session ∅)
  /\ InitFromStream {| stream_format := pcm16 |} true (microphone_session ∅)
     = Ok tt (microphone_session ∅).
Proof. repeat split; reflexivity. Qed.

(** ** Termination *)

Lemma Term_processing (s : Session) (pump : AudioPump) (p : nat) :
  m_audioPump s = Some pump -> pump_state pump = Processing ->
  m_audioIsDone s = Some p -> promises s !! p = Some None ->
  exists s',
    Term s = Ok tt s'
    /\ trace s'
       = (trace s
          ++ [PumpStopPump;
              PromiseSetValue p (ErrorResult "Terminate the http session.")]
          ++ release_actions s)%list
    /\ promises s'
       = <[p := Some (ErrorResult "Terminate the http session.")]> (promises s)
    /\ m_audioPump s' = None /\ m_keepFactoryAlive s' = None
    /\ m_codecAdapter s' = None /\ m_reco s' = None.
Proof.
  intros Hpump Hstate Hp Hopen.
  destruct s as [factory pmp codec reco done mic avg total tmo proms props tr clk].
  destruct pump as [src st fmt].
  simpl in *. subst pmp st done.
  unfold Term, bind, modify, ret, Error, set_value, release_actions. simpl.
  rewrite Hopen.
  destruct codec, factory, reco; simpl; eexists;
    (split; [reflexivity|]); simpl; rewrite <- ?app_assoc; simpl;
    repeat split; reflexivity.
Qed.

Lemma Term_idle (s : Session) :
  (m_audioPump s = None
   \/ exists pump, m_audioPump s = Some pump /\ pump_state pump <> Processing) ->
  exists s',
    Term s = Ok tt s'
    /\ trace s' = (trace s ++ release_actions s)%list
    /\ promises s' = promises s
    /\ m_audioPump s' = None /\ m_keepFactoryAlive s' = None
    /\ m_codecAdapter s' = None /\ m_reco s' = None.
Proof.
  intros H.
  destruct s as [factory pmp codec reco done mic avg total tmo proms props tr clk].
  simpl in *.
  unfold Term, bind, modify, ret, release_actions. simpl.
  destruct H as [Hnone | [pump [Hpump Hstate]]].
  - subst pmp.
    destruct codec, factory, reco; simpl; eexists;
      (split; [reflexivity|]); simpl; rewrite <- ?app_assoc; simpl;
      repeat split; reflexivity.
  - subst pmp.
    assert (Hnp : is_Processing (pump_state pump) = false)
      by (destruct (pump_state pump); [reflexivity | congruence | reflexivity]).
    rewrite Hnp.
    destruct codec, factory, reco; simpl; eexists;
      (split; [reflexivity|]); simpl; rewrite <- ?app_assoc; simpl;
      repeat split; reflexivity.
Qed.

Lemma Term_processing_without_channel (s : Session) (pump : AudioPump) :
  m_audioPump s = Some pump -> pump_state pump = Processing ->
  m_audioIsDone s = None ->
  exists s',
    Term s = Ok tt s'
    /\ trace s' = (trace s ++ [PumpStopPump] ++ release_actions s)%list
    /\ promises s' = promises s
    /\ m_audioPump s' = None /\ m_keepFactoryAlive s' = None
    /\ m_codecAdapter s' = None /\ m_reco s' = None.
Proof.
  intros Hpump Hstate Hp.
  destruct s as [factory pmp codec reco done mic avg total tmo proms props tr clk].
  destruct pump as [src st fmt].
  simpl in *. subst pmp st done.
  unfold Term, bind, modify, ret, release_actions. simpl.
  destruct codec, factory, reco; simpl; eexists;
    (split; [reflexivity|]); simpl; rewrite <- ?app_assoc; simpl;
    repeat split; reflexivity.
Qed.

Lemma Term_processing_resolved (s : Session) (pump : AudioPump) (p : nat)
    (r : RecognitionResult) :
  m_audioPump s = Some pump -> pump_state pump = Processing ->
  m_audioIsDone s = Some p -> promises s !! p = Some (Some r) ->
  Term s
  = Throw future_error_promise_already_satisfied
      (log PumpStopPump (set_audioPump (Some (with_state Idle pump)) s)).
Proof.
  intros Hpump Hstate Hp Hres.
  unfold Term, bind, modify, ret. rewrite Hpump, Hstate. simpl.
  rewrite Hp. unfold Error. simpl. rewrite Hp. unfold set_value. simpl.
  rewrite Hres. reflexivity.
Qed.

(** C6, as the code has it: [Term] on a pump that is processing stops the
    pump first and only then looks at the channel.  When the channel is open
    it is resolved once, with the error result of the message of [Term]; when
    the member is null nothing is resolved; in both cases [Term] goes on to
    close the codec adapter, terminate the thread service and release pump,
    factory reference, codec adapter and engine adapter in that order.  When
    the channel the member points to already holds a value, [Error] throws
    [promise_already_satisfied] and [Term] ends there, with only the pump
    stopped and nothing released.  With no pump, or a pump that is not
    processing, no channel is resolved and the same releases are made. *)
Theorem C6_terminate_stops_the_pump_then_resolves (s : Session) :
  (forall (pump : AudioPump) (p : nat),
      m_audioPump s = Some pump -> pump_state pump = Processing ->
      m_audioIsDone s = Some p -> promises s !! p = Some None ->
      exists s',
        Term s = Ok tt s'
        /\ trace s'
           = (trace s
              ++ [PumpStopPump;
                  PromiseSetValue p
                    (ErrorResult "Terminate the http session.")]
              ++ release_actions s)%list
        /\ promises s'
           = <[p := Some (ErrorResult "Terminate the http session.")]>
               (promises s)
        /\ m_audioPump s' = None /\ m_keepFactoryAlive s' = None
        /\ m_codecAdapter s' = None /\ m_reco s' = None)
  /\ (forall pump : AudioPump,
      m_audioPump s = Some pump -> pump_state pump = Processing ->
      m_audioIsDone s = None ->
      exists s',
        Term s = Ok tt s'
        /\ trace s' = (trace s ++ [PumpStopPump] ++ release_actions s)%list
        /\ promises s' = promises s
        /\ m_audioPump s' = None /\ m_keepFactoryAlive s' = None
        /\ m_codecAdapter s' = None /\ m_reco s' = None)
  /\ (forall (pump : AudioPump) (p : nat) (r : RecognitionResult),
      m_audioPump s = Some pump -> pump_state pump = Processing ->
      m_audioIsDone s = Some p -> promises s !! p = Some (Some r) ->
      Term s
      = Throw future_error_promise_already_satisfied
          (log PumpStopPump (set_audioPump (Some (with_state Idle pump)) s)))
  /\ ((m_audioPump s = None
       \/ exists pump,
            m_audioPump s = Some pump /\ pump_state pump <> Processing) ->
      exists s',
        Term s = Ok tt s'
        /\ trace s' = (trace s ++ release_actions s)%list
        /\ promises s' = promises s
        /\ m_audioPump s' = None /\ m_keepFactoryAlive s' = None
        /\ m_codecAdapter s' = None /\ m_reco s' = None)
  /\ release_actions s
     = (action_if (m_codecAdapter s) CodecClose
        ++ [ThreadServiceTerm]
        ++ action_if (m_audioPump s) PumpTerm
        ++ action_if (m_keepFactoryAlive s) FactoryTerm
        ++ action_if (m_codecAdapter s) CodecTerm
        ++ action_if (m_reco s) RecoTerm)%list.
Proof.
  split; [|split; [|split; [|split]]].
  - intros pump p. apply Term_processing.
  - intros pump. apply Term_processing_without_channel.
  - intros pump p r. apply Term_processing_resolved.
  - apply Term_idle.
  - reflexivity.
Qed.

(** C6, as stated, fails: [Term] in the middle of a cycle calls the pump's
    [StopPump] before it resolves the channel. *)
Lemma C6_pump_is_stopped_before_the_error :
  exists s',
    Term mid_cycle = Ok tt s'
    /\ trace s'
       = [PumpStopPump;
          PromiseSetValue 0 (ErrorResult "Terminate the http session.");
          ThreadServiceTerm; PumpTerm; FactoryTerm; RecoTerm]
    /\ promises s'
       = [Some (ErrorResult "Terminate the http session.")].
Proof. eexists. split; [reflexivity|]. split; reflexivity. Qed.

(** ** Configuration values that do not parse *)

Lemma output_format_default (waveformat : WAVEFORMATEX) (s : Session) :
  (exists e, stoi (GetStringValue "OutputPCMChannelCount" "1" s) = inl e)
  \/ (exists e, stoi (GetStringValue "OutputPCMNumBitsPerSample" "16" s) = inl e)
  \/ (exists e, stoi (GetStringValue "OutputPCMSamplerate" "16000" s) = inl e) ->
  output_format waveformat s = with_output_format 1 16 16000 waveformat.
Proof.
  unfold output_format.
  intros [[e H] | [[e H] | [e H]]]; rewrite H;
    repeat match goal with |- context [match stoi ?x with _ => _ end] =>
             destruct (stoi x) end; reflexivity.
Qed.

Lemma GetMicrophoneTimeout_throws (s : Session) (v : string) (e : StoiError) :
  GetStringValue MICROPHONE_TIMEOUT_PROPERTY "0" s = v ->
  v <> "0" -> stoi v = inl e ->
  GetMicrophoneTimeout s
  = Throw (logic_error ("error in parsing" ++ v ++ stoi_what e)) s.
Proof.
  intros Hv Hne He. unfold GetMicrophoneTimeout. rewrite Hv.
  apply eqb_zero_string in Hne. rewrite Hne, He. reflexivity.
Qed.

Lemma GetMicrophoneTimeout_frame (s s1 : Session) :
  properties s1 = properties s ->
  m_microphoneTimeoutInMS s1 = m_microphoneTimeoutInMS s ->
  GetMicrophoneTimeout s1
  = match GetMicrophoneTimeout s with
    | Ok t _ => Ok t s1
    | Throw e _ => Throw e s1
    | Undefined => Undefined
    end.
Proof.
  intros Hp Ht. unfold GetMicrophoneTimeout, GetStringValue.
  rewrite Hp, Ht.
  destruct (String.eqb _ "0"); [reflexivity|].
  destruct (stoi _); reflexivity.
Qed.

Lemma negotiated_frame enroll type ids pump s :
  properties (negotiated enroll type ids pump s) = properties s
  /\ m_microphoneTimeoutInMS (negotiated enroll type ids pump s)
     = m_microphoneTimeoutInMS s
  /\ m_audioPump (negotiated enroll type ids pump s) = m_audioPump s
  /\ m_audioIsDone (negotiated enroll type ids pump s) = m_audioIsDone s
  /\ promises (negotiated enroll type ids pump s) = promises s
  /\ clock (negotiated enroll type ids pump s) = clock s
  /\ m_codecAdapter (negotiated enroll type ids pump s) = m_codecAdapter s
  /\ m_reco (negotiated enroll type ids pump s) <> None.
Proof.
  unfold negotiated. destruct (m_reco s) eqn:E; simpl; rewrite ?E;
    repeat split; discriminate.
Qed.

(** The body of the streaming task up to the point where it reads the
    timeout. *)
Lemma StartStreaming_task_negotiated enroll type ids ds s pump :
  m_audioPump s = Some pump ->
  StartStreaming_task enroll type ids ds s
  = (t <- GetMicrophoneTimeout ;;
     modify (set_microphoneTimeoutInMS t) ;;;
     modify (set_totalAudioinMS 0) ;;;
     future <- make_promise ;;
     modify StartPump ;;;
     status <- (fun s => wait_for future (clock s) (t + ONE_MINUTE_MS) ds s) ;;
     result <- match status with
               | ready => future_get future
               | timeout => ret (CreateErrorResult BAILED_OUT)
               end ;;
     modify CleanupAfterEachAudioPumping ;;;
     ret (Some result)) (negotiated enroll type ids pump s).
Proof.
  intros Hpump. unfold StartStreaming_task, negotiated.
  destruct (m_reco s); simpl; rewrite Hpump; reflexivity.
Qed.

(** The streaming call when the timeout cannot be read: the task ends at
    [GetMicrophoneTimeout] and the failure goes to [Error]. *)
Lemma StartStreaming_timeout_throws enroll type ids ds s pump e :
  m_audioPump s = Some pump ->
  GetMicrophoneTimeout s = Throw e s ->
  StartStreamingAudioAndWaitForResult enroll type ids ds s
  = (Error EmptyString ;;; ret None) (negotiated enroll type ids pump s).
Proof.
  intros Hpump Hthrow.
  unfold StartStreamingAudioAndWaitForResult, ExecuteSync, CreateTask.
  rewrite (StartStreaming_task_negotiated _ _ _ _ _ _ Hpump).
  destruct (negotiated_frame enroll type ids pump s)
    as (Hprops & Htmo & _).
  unfold bind at 1.
  rewrite (GetMicrophoneTimeout_frame _ _ Hprops Htmo), Hthrow.
  reflexivity.
Qed.

(** C5, as the code has it.  For the output format of the codec adapter: when
    one of the three overrides does not parse, channels, bits per sample and
    sample rate are set to 1, 16 and 16000 and [InitFromStream] goes on
    without an error.  For the microphone timeout: a value other than ["0"]
    that does not parse makes [GetMicrophoneTimeout] throw a logic error; the
    streaming call then ends before the pump is started and the failure goes
    to [Error] at the task boundary.  So the call returns the null result
    when there is no channel, returns the null result and resolves the
    channel with the empty-message error when the member points to an open
    channel, and throws [promise_already_satisfied] to the caller when the
    member points to a channel that already holds a value. *)
Theorem C5_parse_failure_defaults_for_format_throws_for_timeout (s : Session) :
  (forall stream : AudioStream,
      m_audioPump s = None ->
      wFormatTag (stream_format stream) <> WAVE_FORMAT_PCM ->
      (exists e, stoi (GetStringValue "OutputPCMChannelCount" "1" s) = inl e)
      \/ (exists e,
            stoi (GetStringValue "OutputPCMNumBitsPerSample" "16" s) = inl e)
      \/ (exists e, stoi (GetStringValue "OutputPCMSamplerate" "16000" s) = inl e) ->
      exists s',
        InitFromStream stream true s = Ok tt s'
        /\ m_codecAdapter s'
           = Some {| codec_format :=
                       with_output_format 1 16 16000 (stream_format stream) |}
        /\ trace s'
           = (trace s
              ++ [CodecSetFormat
                    (with_output_format 1 16 16000 (stream_format stream));
                  PumpSetReader CodecReader])%list
        /\ promises s' = promises s)
  /\ (forall (v : string) (e : StoiError),
        GetStringValue MICROPHONE_TIMEOUT_PROPERTY "0" s = v ->
        v <> "0" -> stoi v = inl e ->
        GetMicrophoneTimeout s
        = Throw (logic_error ("error in parsing" ++ v ++ stoi_what e)) s
        /\ forall pump enroll type ids ds,
             m_audioPump s = Some pump ->
             (m_audioIsDone s = None ->
              StartStreamingAudioAndWaitForResult enroll type ids ds s
              = Ok None (negotiated enroll type ids pump s))
             /\ (forall p,
                   m_audioIsDone s = Some p -> promises s !! p = Some None ->
                   StartStreamingAudioAndWaitForResult enroll type ids ds s
                   = Ok None
                       (resolved p (ErrorResult EmptyString)
                          (negotiated enroll type ids pump s)))
             /\ (forall p r,
                   m_audioIsDone s = Some p ->
                   promises s !! p = Some (Some r) ->
                   StartStreamingAudioAndWaitForResult enroll type ids ds s
                   = Throw future_error_promise_already_satisfied
                       (negotiated enroll type ids pump s))
             /\ m_audioPump (negotiated enroll type ids pump s) = Some pump
             /\ trace (negotiated enroll type ids pump s)
                = (trace s
                   ++ [RecoSetFormat (pump_format pump) type ids enroll])%list).
Proof.
  split.
  - intros stream Hpump Htag Hfail.
    unfold InitFromStream, ExecuteAsync, CreateTask, InitFromStream_task.
    rewrite Hpump. apply Z.eqb_neq in Htag. rewrite Htag.
    rewrite (output_format_default _ _ Hfail). simpl.
    eexists. split; [reflexivity|]. simpl.
    rewrite <- app_assoc. repeat split; reflexivity.
  - intros v e Hv Hne He.
    pose proof (GetMicrophoneTimeout_throws _ _ _ Hv Hne He) as Hthrow.
    split; [exact Hthrow|].
    intros pump enroll type ids ds Hpump.
    rewrite (StartStreaming_timeout_throws _ _ _ _ _ _ _ Hpump Hthrow).
    destruct (negotiated_frame enroll type ids pump s)
      as (_ & _ & Hpmp & Hd & Hproms & _).
    unfold bind, ret.
    split; [|split; [|split; [|split]]].
    + intros Hdone. rewrite Error_without_channel; [reflexivity|].
      rewrite Hd. exact Hdone.
    + intros p Hp Hopen.
      rewrite (Error_open EmptyString p); [reflexivity | |].
      * rewrite Hd. exact Hp.
      * rewrite Hproms. exact Hopen.
    + intros p r Hp Hres.
      rewrite (Error_twice EmptyString p r); [reflexivity | |].
      * rewrite Hd. exact Hp.
      * rewrite Hproms. exact Hres.
    + rewrite Hpmp. exact Hpump.
    + unfold negotiated. destruct (m_reco s); reflexivity.
Qed.

(** ** What the calls of the pump thread keep *)

Lemma kept_refl s : kept_by_callbacks s s.
Proof. unfold kept_by_callbacks. repeat split; try reflexivity. left; reflexivity. Qed.

Lemma kept_trans s1 s2 s3 :
  kept_by_callbacks s1 s2 -> kept_by_callbacks s2 s3 ->
  kept_by_callbacks s1 s3.
Proof.
  unfold kept_by_callbacks.
  intros (A1 & A2 & A3 & A4 & A5 & A6 & A7 & A8 & A9)
         (B1 & B2 & B3 & B4 & B5 & B6 & B7 & B8 & B9).
  repeat split; try congruence.
  destruct B9 as [B9 | B9]; [rewrite B9; exact A9 | right; exact B9].
Qed.

Lemma kept_valid s s' :
  kept_by_callbacks s s' -> channel_valid s -> channel_valid s'.
Proof.
  unfold kept_by_callbacks, channel_valid.
  intros (_ & _ & _ & _ & _ & _ & _ & Hlen & Hdone) Hv.
  destruct Hdone as [Hd | Hd]; rewrite Hd; [|exact I].
  destruct (m_audioIsDone s) as [p|]; [|exact I].
  apply lookup_lt_is_Some. rewrite Hlen. apply lookup_lt_is_Some. exact Hv.
Qed.

Lemma set_value_kept p r s s' :
  (set_value p r s = Ok tt s' \/ exists e, set_value p r s = Throw e s') ->
  kept_by_callbacks s s'.
Proof.
  unfold set_value.
  destruct (promises s !! p) as [[v|]|]; intros [H | [e H]];
    try discriminate; inversion H; subst.
  - apply kept_refl.
  - unfold kept_by_callbacks. simpl. rewrite length_insert.
    repeat split. left; reflexivity.
Qed.

Lemma Error_kept msg s s' :
  (Error msg s = Ok tt s' \/ exists e, Error msg s = Throw e s') ->
  kept_by_callbacks s s'.
Proof.
  unfold Error. destruct (m_audioIsDone s) as [p|].
  - apply set_value_kept.
  - intros [H | [e H]]; try discriminate. inversion H. apply kept_refl.
Qed.

Lemma log_kept a s : kept_by_callbacks s (log a s).
Proof.
  unfold kept_by_callbacks. simpl. repeat split. left; reflexivity.
Qed.

Lemma SetFormat_kept pformat s s' :
  (SetFormat pformat s = Ok tt s' \/ exists e, SetFormat pformat s = Throw e s') ->
  kept_by_callbacks s s'.
Proof.
  unfold SetFormat. destruct (m_reco s).
  2:{ intros [H | [e H]]; try discriminate. inversion H. apply kept_refl. }
  destruct pformat as [f|]; simpl.
  - assert (K : kept_by_callbacks s
                  (set_avgBytesPerSecond (nAvgBytesPerSec f) s))
      by (unfold kept_by_callbacks; simpl; repeat split; left; reflexivity).
    destruct (m_audioIsDone s); intros [H | [e H]]; try discriminate;
      inversion H; subst; exact K.
  - destruct (m_audioIsDone s) as [p|] eqn:Hp.
    2:{ intros [H | [e H]]; try discriminate. inversion H. apply kept_refl. }
    unfold bind, modify.
    set (s1 := log RecoGetResult (log RecoFlushAudio s)).
    assert (K1 : kept_by_callbacks s s1)
      by (unfold s1; eapply kept_trans; apply log_kept).
    destruct (set_value p _ s1) as [[] s2 | e2 s2 |] eqn:Hset;
      intros [H | [e H]]; try discriminate; inversion H; subst.
    + assert (K2 : kept_by_callbacks s1 s2)
        by (eapply set_value_kept; left; exact Hset).
      eapply kept_trans; [exact K1|]. eapply kept_trans; [exact K2|].
      unfold kept_by_callbacks. simpl. repeat split. right; reflexivity.
    + eapply kept_trans; [exact K1|].
      eapply set_value_kept. right. eexists. exact Hset.
Qed.

Lemma ProcessAudio_kept chunk s s' :
  (ProcessAudio chunk s = Ok tt s'
   \/ exists e, ProcessAudio chunk s = Throw e s') ->
  kept_by_callbacks s s'.
Proof.
  unfold ProcessAudio. destruct (m_reco s) eqn:Hreco.
  2:{ intros [H | [e H]]; try discriminate. inversion H. apply kept_refl. }
  simpl. destruct (m_fromMicrophone s).
  2:{ intros [H | [e H]]; try discriminate. inversion H. apply log_kept. }
  destruct (FromBytesToMilisecond _ _) as [d|].
  2:{ intros [H | [e H]]; discriminate. }
  set (s1 := set_totalAudioinMS _ _).
  assert (K1 : kept_by_callbacks s s1)
    by (unfold s1, kept_by_callbacks; simpl; repeat split; left; reflexivity).
  destruct (counter_reached _ _ _).
  - intros H. eapply kept_trans; [exact K1|]. apply (SetFormat_kept None).
    exact H.
  - intros [H | [e H]]; try discriminate. inversion H. subst. exact K1.
Qed.

Lemma deliver_kept cb s s' :
  (deliver cb s = Ok tt s' \/ exists e, deliver cb s = Throw e s') ->
  kept_by_callbacks s s'.
Proof.
  destruct cb; simpl.
  - apply SetFormat_kept.
  - apply ProcessAudio_kept.
  - apply Error_kept.
Qed.

(** ** The wait of the streaming call *)

Lemma kept_set_clock c s s' :
  kept_by_callbacks s s' -> kept_by_callbacks (set_clock c s) (set_clock c s').
Proof.
  unfold kept_by_callbacks. simpl. intros H.
  repeat split; try apply H.
Qed.

Lemma set_clock_id s : set_clock (clock s) s = s.
Proof. destruct s; reflexivity. Qed.

(** [wait_for] never throws.  It ends [ready] only with a value in the
    shared state and [timeout] only without one, at the deadline; in between
    only calls of the pump thread change the session. *)
Lemma wait_for_spec future start deadline ds : forall s,
  wait_for future start deadline ds s = Undefined
  \/ exists status s',
       wait_for future start deadline ds s = Ok status s'
       /\ kept_by_callbacks (set_clock (clock s') s) s'
       /\ Z.min (clock s) start <= clock s'
          <= Z.max (clock s) (start + Z.max 0 deadline)
       /\ (status = ready ->
           exists v, promises s' !! future = Some (Some v))
       /\ (status = timeout ->
           (forall v, promises s' !! future <> Some (Some v))
           /\ clock s' = start + Z.max 0 deadline).
Proof.
  induction ds as [|[t cb] rest IH]; intros s.
  - right. simpl.
    destruct (promises s !! future) as [[v|]|] eqn:Hp.
    + exists ready, s. rewrite set_clock_id.
      split; [reflexivity|]. split; [apply kept_refl|].
      split; [lia|]. split; [intros _; eauto | discriminate].
    + exists timeout, (set_clock (start + Z.max 0 deadline) s).
      split; [reflexivity|]. split; [apply kept_refl|]. simpl.
      split; [lia|]. split; [discriminate|].
      intros _. split; [|reflexivity]. intros v. rewrite Hp. discriminate.
    + exists timeout, (set_clock (start + Z.max 0 deadline) s).
      split; [reflexivity|]. split; [apply kept_refl|]. simpl.
      split; [lia|]. split; [discriminate|].
      intros _. split; [|reflexivity]. intros v. rewrite Hp. discriminate.
  - simpl.
    assert (Hlate :
      (forall v, promises s !! future <> Some (Some v)) ->
      exists status s',
        Ok timeout (set_clock (start + Z.max 0 deadline) s) = Ok status s'
        /\ kept_by_callbacks (set_clock (clock s') s) s'
        /\ Z.min (clock s) start <= clock s'
           <= Z.max (clock s) (start + Z.max 0 deadline)
        /\ (status = ready -> exists v, promises s' !! future = Some (Some v))
        /\ (status = timeout ->
            (forall v, promises s' !! future <> Some (Some v))
            /\ clock s' = start + Z.max 0 deadline)).
    { intros Hp. exists timeout, (set_clock (start + Z.max 0 deadline) s).
      split; [reflexivity|]. split; [apply kept_refl|]. simpl.
      split; [lia|]. split; [discriminate|].
      intros _. split; [exact Hp | reflexivity]. }
    assert (Hstep :
      (forall v, promises s !! future <> Some (Some v)) ->
      (if (0 <=? t) && (t <=? deadline)
       then match deliver cb (set_clock (start + t) s) with
            | Ok _ s' => wait_for future start deadline rest s'
            | Throw _ s' => wait_for future start deadline rest s'
            | Undefined => Undefined
            end
       else Ok timeout (set_clock (start + Z.max 0 deadline) s)) = Undefined
      \/ exists status s',
        (if (0 <=? t) && (t <=? deadline)
         then match deliver cb (set_clock (start + t) s) with
              | Ok _ s' => wait_for future start deadline rest s'
              | Throw _ s' => wait_for future start deadline rest s'
              | Undefined => Undefined
              end
         else Ok timeout (set_clock (start + Z.max 0 deadline) s))
        = Ok status s'
        /\ kept_by_callbacks (set_clock (clock s') s) s'
        /\ Z.min (clock s) start <= clock s'
           <= Z.max (clock s) (start + Z.max 0 deadline)
        /\ (status = ready -> exists v, promises s' !! future = Some (Some v))
        /\ (status = timeout ->
            (forall v, promises s' !! future <> Some (Some v))
            /\ clock s' = start + Z.max 0 deadline)).
    { intros Hp.
      destruct ((0 <=? t) && (t <=? deadline)) eqn:Ht;
        [|right; apply Hlate; exact Hp].
      apply andb_true_iff in Ht. destruct Ht as [Ht0 Htd].
      apply Z.leb_le in Ht0. apply Z.leb_le in Htd.
      assert (Hnext : forall s1,
                 kept_by_callbacks (set_clock (start + t) s) s1 ->
                 wait_for future start deadline rest s1 = Undefined
                 \/ exists status s',
                      wait_for future start deadline rest s1 = Ok status s'
                      /\ kept_by_callbacks (set_clock (clock s') s) s'
                      /\ Z.min (clock s) start <= clock s'
                         <= Z.max (clock s) (start + Z.max 0 deadline)
                      /\ (status = ready ->
                          exists v, promises s' !! future = Some (Some v))
                      /\ (status = timeout ->
                          (forall v, promises s' !! future <> Some (Some v))
                          /\ clock s' = start + Z.max 0 deadline)).
      { intros s1 K1.
        destruct (IH s1) as [U | (status & s' & Hw & K & Hc & Hr & Hto)];
          [left; exact U|].
        right. exists status, s'. split; [exact Hw|].
        assert (Hc1 : clock s1 = start + t)
          by (destruct K1 as (_ & _ & _ & _ & _ & _ & Hclk & _); exact Hclk).
        split.
        - apply (kept_set_clock (clock s')) in K1.
          eapply kept_trans; [exact K1 | exact K].
        - split; [rewrite Hc1 in Hc; lia|]. split; assumption. }
      destruct (deliver cb (set_clock (start + t) s)) as [[] s1 | e s1 |] eqn:Hd.
      - apply Hnext. apply (deliver_kept cb). left. exact Hd.
      - apply Hnext. apply (deliver_kept cb). right. eexists. exact Hd.
      - left. reflexivity. }
    destruct (promises s !! future) as [[v|]|] eqn:Hp.
    + right. exists ready, s. rewrite set_clock_id.
      split; [reflexivity|]. split; [apply kept_refl|].
      split; [lia|]. split; [intros _; eauto | discriminate].
    + apply Hstep. intros v. discriminate.
    + apply Hstep. intros v. discriminate.
Qed.

Lemma Cleanup_fields s :
  m_audioPump (CleanupAfterEachAudioPumping s) = None
  /\ m_fromMicrophone (CleanupAfterEachAudioPumping s) = false
  /\ m_totalAudioinMS (CleanupAfterEachAudioPumping s) = 0
  /\ m_reco (CleanupAfterEachAudioPumping s) = m_reco s
  /\ m_codecAdapter (CleanupAfterEachAudioPumping s) = m_codecAdapter s
  /\ m_keepFactoryAlive (CleanupAfterEachAudioPumping s) = m_keepFactoryAlive s
  /\ m_audioIsDone (CleanupAfterEachAudioPumping s) = m_audioIsDone s
  /\ promises (CleanupAfterEachAudioPumping s) = promises s
  /\ clock (CleanupAfterEachAudioPumping s) = clock s.
Proof.
  unfold CleanupAfterEachAudioPumping, StopPump, term_if.
  destruct (m_audioPump s) as [pump|] eqn:Hp; simpl.
  - destruct (is_Processing (pump_state pump)); simpl; rewrite ?Hp; simpl;
      repeat split; reflexivity.
  - rewrite Hp. simpl. repeat split; reflexivity.
Qed.

Lemma started_fields enroll type ids pump T s :
  m_audioPump s = Some pump ->
  clock (started enroll type ids pump T s) = clock s
  /\ m_codecAdapter (started enroll type ids pump T s) = m_codecAdapter s
  /\ m_reco (started enroll type ids pump T s) <> None
  /\ promises (started enroll type ids pump T s) = (promises s ++ [None])%list
  /\ m_audioIsDone (started enroll type ids pump T s)
     = Some (length (promises s))
  /\ m_audioPump (started enroll type ids pump T s)
     = Some (with_state Processing pump)
  /\ m_microphoneTimeoutInMS (started enroll type ids pump T s) = T
  /\ m_totalAudioinMS (started enroll type ids pump T s) = 0
  /\ m_fromMicrophone (started enroll type ids pump T s) = m_fromMicrophone s
  /\ m_avgBytesPerSecond (started enroll type ids pump T s)
     = m_avgBytesPerSecond s
  /\ trace (started enroll type ids pump T s)
     = (trace s
        ++ [RecoSetFormat (pump_format pump) type ids enroll; PumpStartPump])%list.
Proof.
  intros Hpump. unfold started, negotiated, StartPump.
  destruct (m_reco s) eqn:E; simpl; rewrite Hpump; simpl;
    rewrite <- app_assoc, ?E; repeat split; discriminate.
Qed.

(** The streaming call up to the wait. *)
Lemma StartStreaming_until_wait enroll type ids ds s pump T :
  m_audioPump s = Some pump -> GetMicrophoneTimeout s = Ok T s ->
  StartStreamingAudioAndWaitForResult enroll type ids ds s
  = match wait_for (length (promises s)) (clock s) (T + ONE_MINUTE_MS) ds
            (started enroll type ids pump T s) with
    | Ok ready s' =>
        match promises s' !! length (promises s) with
        | Some (Some v) => Ok (Some v) (CleanupAfterEachAudioPumping s')
        | _ => Undefined
        end
    | Ok timeout s' =>
        Ok (Some (ErrorResult BAILED_OUT)) (CleanupAfterEachAudioPumping s')
    | Throw e s' => (Error EmptyString ;;; ret None) s'
    | Undefined => Undefined
    end.
Proof.
  intros Hpump HT.
  unfold StartStreamingAudioAndWaitForResult, ExecuteSync, CreateTask.
  rewrite (StartStreaming_task_negotiated _ _ _ _ _ _ Hpump).
  destruct (negotiated_frame enroll type ids pump s)
    as (Hprops & Htmo & _ & _ & Hproms & Hclock & _).
  unfold bind at 1.
  rewrite (GetMicrophoneTimeout_frame _ _ Hprops Htmo), HT.
  unfold started. cbv zeta.
  remember (negotiated enroll type ids pump s) as n eqn:Hn.
  unfold bind, modify, ret, make_promise, future_get. simpl.
  set (X := StartPump _).
  assert (Hc : clock X = clock s).
  { unfold X, StartPump. simpl.
    destruct (m_audioPump n); simpl; exact Hclock. }
  rewrite Hc, Hproms.
  destruct (wait_for _ _ _ _ X) as [[] s' | e s' |]; simpl;
    [|reflexivity|reflexivity|reflexivity].
  destruct (promises s' !! length (promises s)) as [[v|]|]; reflexivity.
Qed.

(** A cycle that reaches the wait: the streaming call returns a result, with
    the cleanup done, unless a call of the pump thread had no defined
    behaviour. *)
Lemma StartStreaming_cycle enroll type ids ds s pump T :
  m_audioPump s = Some pump -> GetMicrophoneTimeout s = Ok T s ->
  StartStreamingAudioAndWaitForResult enroll type ids ds s = Undefined
  \/ exists r s',
       StartStreamingAudioAndWaitForResult enroll type ids ds s
       = Ok (Some r) s'
       /\ m_audioPump s' = None
       /\ m_fromMicrophone s' = false
       /\ m_totalAudioinMS s' = 0
       /\ m_reco s' <> None
       /\ m_codecAdapter s' = m_codecAdapter s
       /\ m_keepFactoryAlive s' = m_keepFactoryAlive s
       /\ clock s <= clock s' <= clock s + Z.max 0 (T + ONE_MINUTE_MS)
       /\ (promises s' !! length (promises s) = Some (Some r)
           \/ (forall v, promises s' !! length (promises s) <> Some (Some v))
              /\ r = ErrorResult BAILED_OUT
              /\ clock s' = clock s + Z.max 0 (T + ONE_MINUTE_MS)).
Proof.
  intros Hpump HT.
  rewrite (StartStreaming_until_wait _ _ _ _ _ _ _ Hpump HT).
  destruct (started_fields enroll type ids pump T s Hpump)
    as (Hclk & Hcodec & Hreco & _).
  assert (Hfact : m_keepFactoryAlive (started enroll type ids pump T s)
                  = m_keepFactoryAlive s).
  { unfold started, negotiated, StartPump.
    destruct (m_reco s); simpl; rewrite Hpump; reflexivity. }
  destruct (wait_for_spec (length (promises s)) (clock s) (T + ONE_MINUTE_MS)
              ds (started enroll type ids pump T s))
    as [U | (status & s' & Hw & K & Hc & Hr & Hto)].
  - left. rewrite U. reflexivity.
  - rewrite Hw. rewrite Hclk in Hc.
    destruct K as (K1 & K2 & _ & K4 & _).
    simpl in K1, K2, K4.
    destruct (Cleanup_fields s')
      as (C1 & C2 & C3 & C4 & C5 & C6 & _ & C8 & C9).
    destruct status.
    + destruct (Hr eq_refl) as [v Hv]. rewrite Hv.
      right. exists v, (CleanupAfterEachAudioPumping s').
      split; [reflexivity|].
      rewrite C1, C2, C3, C4, C5, C6, C8, C9, K1, K2, K4.
      repeat split; try assumption; try lia.
      left. exact Hv.
    + destruct (Hto eq_refl) as [Hnone Hclock].
      right. exists (ErrorResult BAILED_OUT), (CleanupAfterEachAudioPumping s').
      split; [reflexivity|].
      rewrite C1, C2, C3, C4, C5, C6, C8, C9, K1, K2, K4.
      repeat split; try assumption; try lia.
      right. repeat split; [exact Hnone | exact Hclock].
Qed.

(** Without a pump the streaming call returns the pump-access error at once. *)
Lemma StartStreaming_without_pump enroll type ids ds s :
  m_audioPump s = None ->
  StartStreamingAudioAndWaitForResult enroll type ids ds s
  = Ok (Some (ErrorResult "Error accessing audio pump"))
      (match m_reco s with
       | None => set_reco (Some CSpxHttpRecoEngineAdapter) s
       | Some _ => s
       end).
Proof.
  intros Hnone.
  unfold StartStreamingAudioAndWaitForResult, ExecuteSync, CreateTask,
    StartStreaming_task.
  destruct (m_reco s); simpl; rewrite Hnone; reflexivity.
Qed.

(** C2, as the code has it: when a pump exists and the timeout is read, the
    streaming call, whichever way the wait ended, returns with the pump
    reference cleared, the microphone flag cleared and the counter at zero;
    the engine adapter stays in place.  When no pump exists the call returns
    the pump-access error and runs no cleanup: the session is as before but
    for the engine adapter, which was created if there was none. *)
Theorem C2_cleanup_after_a_cycle_that_had_a_pump
    (enroll : bool) (type : VoiceProfileType) (ids : list string)
    (ds : list (Z * Callback)) (s : Session) :
  (forall (pump : AudioPump) (T : Z),
      m_audioPump s = Some pump -> GetMicrophoneTimeout s = Ok T s ->
      StartStreamingAudioAndWaitForResult enroll type ids ds s <> Undefined ->
      exists r s',
        StartStreamingAudioAndWaitForResult enroll type ids ds s
        = Ok (Some r) s'
        /\ m_audioPump s' = None
        /\ m_fromMicrophone s' = false
        /\ m_totalAudioinMS s' = 0
        /\ m_reco s' <> None)
  /\ (m_audioPump s = None ->
      StartStreamingAudioAndWaitForResult enroll type ids ds s
      = Ok (Some (ErrorResult "Error accessing audio pump"))
          (match m_reco s with
           | None => set_reco (Some CSpxHttpRecoEngineAdapter) s
           | Some _ => s
           end)).
Proof.
  split.
  - intros pump T Hpump HT Hdef.
    destruct (StartStreaming_cycle enroll type ids ds s pump T Hpump HT)
      as [U | (r & s' & Hrun & H1 & H2 & H3 & H4 & _)]; [contradiction|].
    exists r, s'. repeat split; assumption.
  - intros Hnone.
    unfold StartStreamingAudioAndWaitForResult, ExecuteSync, CreateTask,
      StartStreaming_task.
    destruct (m_reco s); simpl; rewrite Hnone; reflexivity.
Qed.

(** C3, as the code has it: on a session with a pump, when the microphone
    timeout is read as [T] and no call of the pump thread is undefined, the
    streaming call waits on the channel of the cycle for [T] plus one minute
    (not at all when that sum is negative).  It returns a result not later
    than that; the result is the value of the channel when one arrived in
    time, and the synthesized bail-out error, at the deadline, when none
    did. *)
Theorem C3_wait_is_bounded_by_timeout_plus_one_minute
    (enroll : bool) (type : VoiceProfileType) (ids : list string)
    (ds : list (Z * Callback)) (s : Session) (pump : AudioPump) (T : Z) :
  m_audioPump s = Some pump -> GetMicrophoneTimeout s = Ok T s ->
  StartStreamingAudioAndWaitForResult enroll type ids ds s <> Undefined ->
  exists r s',
    StartStreamingAudioAndWaitForResult enroll type ids ds s = Ok (Some r) s'
    /\ clock s <= clock s' <= clock s + Z.max 0 (T + 60000)
    /\ (promises s' !! length (promises s) = Some (Some r)
        \/ (forall v, promises s' !! length (promises s) <> Some (Some v))
           /\ r = ErrorResult BAILED_OUT
           /\ clock s' = clock s + Z.max 0 (T + 60000)).
Proof.
  intros Hpump HT Hdef.
  destruct (StartStreaming_cycle enroll type ids ds s pump T Hpump HT)
    as [U | (r & s' & Hrun & _ & _ & _ & _ & _ & _ & Hc & Hres)];
    [contradiction|].
  exists r, s'. split; [exact Hrun|]. split; [exact Hc | exact Hres].
Qed.

(** ** The end of stream that [ProcessAudio] raises *)

Lemma count_app f tr1 tr2 :
  count f (tr1 ++ tr2) = (count f tr1 + count f tr2)%nat.
Proof.
  induction tr1 as [|a tr1 IH]; simpl; [reflexivity|]. rewrite IH. lia.
Qed.

(** Once the channel is gone, further chunks are handed to the engine adapter
    and counted, and nothing is flushed or resolved. *)
Lemma process_chunks_after_flush (chunks : list DataChunk) : forall s,
  m_reco s <> None -> m_audioIsDone s = None -> m_fromMicrophone s = true ->
  m_avgBytesPerSecond s <> 0 ->
  exists s',
    process_chunks chunks s = Ok tt s'
    /\ promises s' = promises s
    /\ m_audioIsDone s' = None
    /\ m_audioPump s' = m_audioPump s
    /\ count is_flush (trace s') = count is_flush (trace s)
    /\ count is_set_value (trace s') = count is_set_value (trace s).
Proof.
  induction chunks as [|c rest IH]; intros s Hreco Hdone Hmic Havg.
  - exists s. repeat split; try reflexivity; assumption.
  - simpl. unfold bind.
    rewrite ProcessAudio_microphone by assumption. cbv zeta.
    set (s1 := set_totalAudioinMS _ _).
    assert (Hstep : (if counter_reached counter (m_totalAudioinMS s1)
                          (m_microphoneTimeoutInMS s)
                     then SetFormat None s1 else Ok tt s1) = Ok tt s1).
    { destruct (counter_reached _ _ _); [|reflexivity].
      apply SetFormat_null_without_channel; assumption. }
    rewrite Hstep.
    destruct (IH s1) as (s' & Hrun & Hp & Hd & Hpump & Hf & Hv);
      try assumption.
    exists s'. split; [exact Hrun|].
    rewrite Hp, Hd, Hpump, Hf, Hv. unfold s1. simpl.
    rewrite !count_app. simpl. repeat split; lia.
Qed.

(** C4, as the code has it: on a microphone cycle with an open channel and a
    nonzero byte rate, a run of chunks whose duration, as the code counts it,
    reaches the timeout makes [ProcessAudio] take the flush path of
    [SetFormat(nullptr)] exactly once, at the first chunk [c] with which the
    counter reaches the timeout: the engine adapter is flushed once, the
    channel is resolved once with the engine adapter's result, and the chunks
    after [c] change neither.  The pump itself is left as it was.  The code
    counts each chunk for its size times 1000, wrapped at 32 bits, divided by
    the byte rate and rounded down, and adds that to a counter that wraps at
    its own width ([duration_reaches]). *)
Theorem C4_timeout_reached_resolves_exactly_once
    (chunks : list DataChunk) : forall (s : Session) (p : nat),
  m_reco s <> None -> m_fromMicrophone s = true ->
  m_avgBytesPerSecond s <> 0 ->
  m_audioIsDone s = Some p -> promises s !! p = Some None ->
  duration_reaches counter (m_avgBytesPerSecond s) (m_microphoneTimeoutInMS s)
    (m_totalAudioinMS s) chunks = true ->
  exists (before : list DataChunk) (c : DataChunk) (after : list DataChunk)
         (s1 s' : Session) (tr : list Action),
    chunks = (before ++ c :: after)%list
    /\ duration_reaches counter (m_avgBytesPerSecond s)
         (m_microphoneTimeoutInMS s) (m_totalAudioinMS s) before = false
    /\ process_chunks (before ++ [c]) s = Ok tt s1
    /\ promises s1 = <[p := Some (engine_result tr)]> (promises s)
    /\ process_chunks chunks s = Ok tt s'
    /\ promises s' = promises s1
    /\ m_audioIsDone s' = None
    /\ m_audioPump s' = m_audioPump s
    /\ count is_flush (trace s') = S (count is_flush (trace s))
    /\ count is_set_value (trace s') = S (count is_set_value (trace s)).
Proof.
  induction chunks as [|c rest IH]; intros s p Hreco Hmic Havg Hp Hopen Hreach.
  - discriminate Hreach.
  - simpl in Hreach. unfold FromBytesToMilisecond in Hreach.
    pose proof Havg as Havgb. apply Z.eqb_neq in Havgb.
    rewrite Havgb in Hreach.
    pose proof (ProcessAudio_microphone c s Hreco Hmic Havg) as Hstep.
    cbv zeta in Hstep.
    set (s0 := set_totalAudioinMS
                 (counter_add counter (m_totalAudioinMS s)
                    (to_uint32 (size c * 1000) / m_avgBytesPerSecond s))
                 (log (RecoProcessAudio c) s)) in *.
    change (m_totalAudioinMS s0)
      with (counter_add counter (m_totalAudioinMS s)
              (to_uint32 (size c * 1000) / m_avgBytesPerSecond s)) in Hstep.
    destruct (counter_reached counter _ (m_microphoneTimeoutInMS s)) eqn:Hnow.
    + (* the counter reaches the timeout with [c] *)
      assert (Hflush : SetFormat None s0 = Ok tt (flushed p s0))
        by (apply SetFormat_null_open; assumption).
      rewrite Hflush in Hstep.
      destruct (process_chunks_after_flush rest (flushed p s0))
        as (s' & Hrun & Hproms & Hdone & Hpump & Hf & Hv);
        try assumption; try reflexivity.
      exists [], c, rest, (flushed p s0), s',
        (trace s0 ++ [RecoFlushAudio])%list.
      split; [reflexivity|]. split; [reflexivity|].
      split; [simpl; unfold bind; rewrite Hstep; reflexivity|].
      split; [reflexivity|].
      split; [simpl; unfold bind; rewrite Hstep; exact Hrun|].
      split; [exact Hproms|]. split; [exact Hdone|].
      split; [rewrite Hpump; reflexivity|].
      rewrite Hf, Hv. unfold s0. simpl. rewrite ?count_app. simpl.
      rewrite ?count_app. simpl. split; lia.
    + (* not yet *)
      simpl in Hreach.
      destruct (IH s0 p) as
        (before & c' & after & s1 & s' & tr & Hsplit & Hbefore & Hrun1
         & Hres & Hrun & Hproms & Hdone & Hpump & Hf & Hv);
        try assumption.
      exists (c :: before), c', after, s1, s', tr.
      split; [rewrite Hsplit; reflexivity|].
      split.
      { simpl. unfold FromBytesToMilisecond. rewrite Havgb, Hnow.
        exact Hbefore. }
      split; [simpl; unfold bind; rewrite Hstep; exact Hrun1|].
      split; [exact Hres|].
      split; [simpl; unfold bind; rewrite Hstep; exact Hrun|].
      split; [exact Hproms|]. split; [exact Hdone|].
      split; [rewrite Hpump; reflexivity|].
      rewrite Hf, Hv. unfold s0. simpl. rewrite !count_app. simpl.
      split; lia.
Qed.

(** * Further properties of the code *)

(** ** Arithmetic *)

(** X1. [FromBytesToMilisecond] never overstates the duration of a chunk and
    is exact as long as the size times 1000 fits 32 bits; from 4294968
    bytes on the product wraps and the duration is understated. *)
Theorem FromBytesToMilisecond_bounds (bytes bytesPerSecond : Z) :
  0 <= bytes -> 0 < bytesPerSecond ->
  exists ms,
    FromBytesToMilisecond bytes bytesPerSecond = Some ms
    /\ 0 <= ms <= bytes * 1000 / bytesPerSecond
    /\ ms < 2 ^ 32
    /\ (bytes * 1000 < 2 ^ 32 -> ms = bytes * 1000 / bytesPerSecond)
    /\ (2 ^ 32 <= bytes * 1000 -> bytesPerSecond <= 2 ^ 32 ->
        ms < bytes * 1000 / bytesPerSecond).
Proof.
  intros Hb Hr. unfold FromBytesToMilisecond.
  destruct (bytesPerSecond =? 0) eqn:E; [apply Z.eqb_eq in E; lia|].
  eexists. split; [reflexivity|]. unfold to_uint32, UINT32_MOD.
  assert (Hm : 0 <= (bytes * 1000) mod 2 ^ 32 < 2 ^ 32)
    by (apply Z.mod_pos_bound; lia).
  assert (Hle : (bytes * 1000) mod 2 ^ 32 <= bytes * 1000)
    by (apply Z.mod_le; lia).
  split.
  { split; [apply Z.div_pos; lia | apply Z.div_le_mono; lia]. }
  split.
  { apply Z.le_lt_trans with ((bytes * 1000) mod 2 ^ 32); [|lia].
    apply Z.div_le_upper_bound; [lia|]. nia. }
  split.
  { intros Hsmall. rewrite Z.mod_small by lia. reflexivity. }
  intros Hbig Hrate.
  apply Z.lt_le_trans with (2 ^ 32 / bytesPerSecond + ((bytes * 1000) mod 2 ^ 32) / bytesPerSecond).
  - assert (1 <= 2 ^ 32 / bytesPerSecond)
      by (apply Z.div_le_lower_bound; lia).
    lia.
  - assert (Hsplit : 2 ^ 32 + (bytes * 1000) mod 2 ^ 32 <= bytes * 1000).
    { rewrite (Z.div_mod (bytes * 1000) (2 ^ 32)) at 2 by lia.
      assert (1 <= bytes * 1000 / 2 ^ 32)
        by (apply Z.div_le_lower_bound; lia).
      nia. }
    apply Z.le_trans with ((2 ^ 32 + (bytes * 1000) mod 2 ^ 32) / bytesPerSecond).
    + pose proof (Z.div_mod (2 ^ 32) bytesPerSecond ltac:(lia)) as D1.
      pose proof (Z.div_mod ((bytes * 1000) mod 2 ^ 32) bytesPerSecond
                    ltac:(lia)) as D2.
      pose proof (Z.mod_pos_bound (2 ^ 32) bytesPerSecond ltac:(lia)) as M1.
      pose proof (Z.mod_pos_bound ((bytes * 1000) mod 2 ^ 32) bytesPerSecond
                    ltac:(lia)) as M2.
      apply Z.div_le_lower_bound; [lia|]. nia.
    + apply Z.div_le_mono; lia.
Qed.

(** X2. An override of the microphone timeout that parses is taken modulo
    2^32: the timeout returned is never negative, and a negative override
    becomes a timeout of more than 24 days. *)
Theorem GetMicrophoneTimeout_override_is_unsigned (s : Session) (v : string)
    (n : Z) :
  properties s !! MICROPHONE_TIMEOUT_PROPERTY = Some v ->
  v <> "0" -> stoi v = inr n ->
  GetMicrophoneTimeout s = Ok (n mod 2 ^ 32) s
  /\ 0 <= n mod 2 ^ 32 < 2 ^ 32
  /\ (0 <= n -> n mod 2 ^ 32 = n)
  /\ (n < 0 -> 2 ^ 31 <= n mod 2 ^ 32).
Proof.
  intros Hv Hne Hn.
  assert (Hrange : INT_MIN <= n <= INT_MAX).
  { unfold stoi in Hn.
    destruct (skip_space v) as [|a r]; simpl in Hn; [discriminate|].
    repeat match type of Hn with
           | context [if ?c then _ else _] => destruct c eqn:?
           | context [match ?c with _ => _ end] => destruct c eqn:?
           end; try discriminate;
      inversion Hn; subst;
      match goal with
      | H : (_ <=? _) && (_ <=? _) = true |- _ =>
          apply andb_true_iff in H; destruct H as [H1 H2];
          apply Z.leb_le in H1; apply Z.leb_le in H2; lia
      end. }
  unfold INT_MIN, INT_MAX in Hrange.
  split.
  { unfold GetMicrophoneTimeout. rewrite (GetStringValue_set _ _ _ _ Hv).
    apply eqb_zero_string in Hne. rewrite Hne, Hn. reflexivity. }
  split; [apply Z.mod_pos_bound; lia|].
  split.
  - intros Hpos. apply Z.mod_small. lia.
  - intros Hneg.
    replace (n mod 2 ^ 32) with (n + 2 ^ 32); [lia|].
    apply Z.mod_unique with (-1); lia.
Qed.

(** X3. The output format of the codec adapter: without overrides it is 1
    channel, 16 bits and 16000 Hz; with overrides that parse, channels and
    bits are cut to 16 bits and the rate to 32 bits; in every case the three
    fields are in the range of their types and the other fields of the
    stream's format are kept. *)
Theorem output_format_fields (waveformat : WAVEFORMATEX) (s : Session) :
  (properties s !! "OutputPCMChannelCount" = None ->
   properties s !! "OutputPCMNumBitsPerSample" = None ->
   properties s !! "OutputPCMSamplerate" = None ->
   output_format waveformat s = with_output_format 1 16 16000 waveformat)
  /\ (forall c b r,
        stoi (GetStringValue "OutputPCMChannelCount" "1" s) = inr c ->
        stoi (GetStringValue "OutputPCMNumBitsPerSample" "16" s) = inr b ->
        stoi (GetStringValue "OutputPCMSamplerate" "16000" s) = inr r ->
        output_format waveformat s
        = with_output_format (c mod 2 ^ 16) (b mod 2 ^ 16) (r mod 2 ^ 32)
            waveformat)
  /\ 0 <= nChannels (output_format waveformat s) < 2 ^ 16
  /\ 0 <= wBitsPerSample (output_format waveformat s) < 2 ^ 16
  /\ 0 <= nSamplesPerSec (output_format waveformat s) < 2 ^ 32
  /\ wFormatTag (output_format waveformat s) = wFormatTag waveformat
  /\ nAvgBytesPerSec (output_format waveformat s) = nAvgBytesPerSec waveformat
  /\ nBlockAlign (output_format waveformat s) = nBlockAlign waveformat.
Proof.
  split.
  { intros H1 H2 H3. unfold output_format.
    rewrite !GetStringValue_unset by assumption. reflexivity. }
  split.
  { intros c b r Hc Hb Hr. unfold output_format. rewrite Hc, Hb, Hr.
    reflexivity. }
  unfold output_format.
  destruct (stoi (GetStringValue "OutputPCMChannelCount" "1" s)) as [|c];
    destruct (stoi (GetStringValue "OutputPCMNumBitsPerSample" "16" s)) as [|b];
    destruct (stoi (GetStringValue "OutputPCMSamplerate" "16000" s)) as [|r];
    simpl; unfold to_uint16, to_uint32, UINT16_MOD, UINT32_MOD;
    repeat split; try lia; try reflexivity;
    try (apply Z.mod_pos_bound; lia).
Qed.

(** ** The calls of the pump thread *)

(** X4. Whatever the pump thread calls, and whether the call returns or
    throws, it leaves the pump, the codec adapter, the engine adapter, the
    factory reference, the microphone flag and the properties as they are,
    never adds or removes a shared state, and either keeps the member
    [m_audioIsDone] or clears it. *)
Theorem pump_calls_keep_what_the_session_owns
    (cb : Callback) (s s' : Session) :
  (deliver cb s = Ok tt s' \/ exists e, deliver cb s = Throw e s') ->
  m_audioPump s' = m_audioPump s
  /\ m_codecAdapter s' = m_codecAdapter s
  /\ m_reco s' = m_reco s
  /\ m_keepFactoryAlive s' = m_keepFactoryAlive s
  /\ m_fromMicrophone s' = m_fromMicrophone s
  /\ properties s' = properties s
  /\ length (promises s') = length (promises s)
  /\ (m_audioIsDone s' = m_audioIsDone s \/ m_audioIsDone s' = None).
Proof.
  intros H. apply deliver_kept in H.
  destruct H as (H1 & H2 & H3 & H4 & H5 & H6 & _ & H8 & H9).
  repeat split; assumption.
Qed.

Lemma deliver_rate cb s s' :
  (deliver cb s = Ok tt s' \/ exists e, deliver cb s = Throw e s') ->
  m_avgBytesPerSecond s'
  = match cb with
    | CbSetFormat (Some f) =>
        match m_reco s with
        | Some _ => nAvgBytesPerSec f
        | None => m_avgBytesPerSecond s
        end
    | _ => m_avgBytesPerSecond s
    end.
Proof.
  destruct cb as [[f|]|chunk|msg]; simpl.
  - unfold SetFormat. destruct (m_reco s); simpl.
    + destruct (m_audioIsDone s); intros [H | [e H]]; try discriminate;
        inversion H; reflexivity.
    + intros [H | [e H]]; try discriminate; inversion H; reflexivity.
  - unfold SetFormat. destruct (m_reco s); simpl.
    + destruct (m_audioIsDone s) as [p|]; simpl.
      * unfold bind, set_value, modify. simpl.
        destruct (promises s !! p) as [[r0|]|]; intros [H | [e H]];
          try discriminate; inversion H; reflexivity.
      * intros [H | [e H]]; try discriminate; inversion H; reflexivity.
    + intros [H | [e H]]; try discriminate; inversion H; reflexivity.
  - unfold ProcessAudio. destruct (m_reco s) eqn:Hreco; simpl.
    + destruct (m_fromMicrophone s).
      * destruct (FromBytesToMilisecond _ _);
          [|intros [H | [e H]]; discriminate].
        destruct (counter_reached _ _ _).
        -- unfold SetFormat. simpl. rewrite Hreco.
           destruct (m_audioIsDone s) as [p|]; simpl.
           ++ unfold bind, set_value, modify. simpl.
              destruct (promises s !! p) as [[r0|]|]; intros [H | [e H]];
                try discriminate; inversion H; reflexivity.
           ++ intros [H | [e H]]; try discriminate; inversion H; reflexivity.
        -- intros [H | [e H]]; try discriminate; inversion H; reflexivity.
      * intros [H | [e H]]; try discriminate; inversion H; reflexivity.
    + intros [H | [e H]]; try discriminate; inversion H; reflexivity.
  - unfold Error. destruct (m_audioIsDone s) as [p|].
    + unfold set_value.
      destruct (promises s !! p) as [[r0|]|]; intros [H | [e H]];
        try discriminate; inversion H; reflexivity.
    + intros [H | [e H]]; try discriminate; inversion H; reflexivity.
Qed.

Lemma deliver_defined cb s :
  channel_valid s ->
  (m_fromMicrophone s = false \/ m_avgBytesPerSecond s <> 0) ->
  deliver cb s <> Undefined.
Proof.
  intros Hv Hacc. destruct cb as [pformat|chunk|msg]; simpl.
  - apply SetFormat_defined. exact Hv.
  - unfold ProcessAudio. destruct (m_reco s) eqn:Hreco; [|discriminate].
    simpl. destruct (m_fromMicrophone s) eqn:Hmic; [|discriminate].
    destruct Hacc as [Hacc | Hacc]; [discriminate|].
    unfold FromBytesToMilisecond. apply Z.eqb_neq in Hacc. rewrite Hacc.
    destruct (counter_reached _ _ _); [|discriminate].
    apply SetFormat_defined. exact Hv.
  - apply Error_defined. exact Hv.
Qed.

Lemma set_clock_valid c s : channel_valid s -> channel_valid (set_clock c s).
Proof. unfold channel_valid. simpl. intros H; exact H. Qed.

Lemma wait_for_defined future start deadline ds : forall s,
  channel_valid s -> accounting_defined ds s ->
  wait_for future start deadline ds s <> Undefined.
Proof.
  induction ds as [|[t cb] rest IH]; intros s Hv Hacc; simpl.
  - destruct (promises s !! future) as [[v|]|]; discriminate.
  - assert (Hgo :
      (if (0 <=? t) && (t <=? deadline)
       then match deliver cb (set_clock (start + t) s) with
            | Ok _ s' => wait_for future start deadline rest s'
            | Throw _ s' => wait_for future start deadline rest s'
            | Undefined => Undefined
            end
       else Ok timeout (set_clock (start + Z.max 0 deadline) s)) <> Undefined).
    { destruct ((0 <=? t) && (t <=? deadline)); [|discriminate].
      assert (Hnow : m_fromMicrophone (set_clock (start + t) s) = false
                     \/ m_avgBytesPerSecond (set_clock (start + t) s) <> 0)
        by (destruct Hacc as [H | [H _]]; [left | right]; exact H).
      pose proof (deliver_defined cb _ (set_clock_valid (start + t) s Hv) Hnow)
        as Hdef.
      assert (Hnext : forall s1,
                 (deliver cb (set_clock (start + t) s) = Ok tt s1
                  \/ exists e, deliver cb (set_clock (start + t) s) = Throw e s1) ->
                 wait_for future start deadline rest s1 <> Undefined).
      { intros s1 Hd. pose proof (deliver_kept cb _ _ Hd) as K.
        apply IH.
        - apply (kept_valid _ _ K). apply set_clock_valid. exact Hv.
        - destruct Hacc as [Hmic | [Havg Hall]].
          + left. destruct K as (_ & _ & _ & _ & K5 & _). rewrite K5.
            exact Hmic.
          + right. inversion Hall as [|d l Hd1 Hrest]; subst.
            split; [|exact Hrest].
            rewrite (deliver_rate cb _ _ Hd). simpl.
            unfold announces_nonzero_rate in Hd1. simpl in Hd1.
            destruct cb as [[f|]|chunk|msg]; try exact Havg.
            destruct (m_reco s); [exact Hd1 | exact Havg]. }
      destruct (deliver cb (set_clock (start + t) s)) as [[] s1 | e s1 |] eqn:Hd.
      - apply Hnext. left. reflexivity.
      - apply Hnext. right. eexists. reflexivity.
      - contradiction. }
    destruct (promises s !! future) as [[v|]|]; [discriminate | exact Hgo | exact Hgo].
Qed.

Lemma started_valid enroll type ids pump T s :
  m_audioPump s = Some pump ->
  channel_valid (started enroll type ids pump T s).
Proof.
  intros Hpump.
  destruct (started_fields enroll type ids pump T s Hpump)
    as (_ & _ & _ & Hproms & Hdone & _).
  unfold channel_valid. rewrite Hdone, Hproms.
  apply lookup_lt_is_Some. rewrite length_app. simpl. lia.
Qed.

(** X5. A streaming call on a session with a pump and a readable timeout
    returns a result and has done the cleanup, whatever the pump thread
    calls in the meantime, provided the duration accounting is defined: the
    source is not the microphone, or the byte rate is nonzero at the start
    and in every format the pump announces. *)
Theorem streaming_call_returns_a_result
    (enroll : bool) (type : VoiceProfileType) (ids : list string)
    (ds : list (Z * Callback)) (s : Session) (pump : AudioPump) (T : Z) :
  m_audioPump s = Some pump -> GetMicrophoneTimeout s = Ok T s ->
  accounting_defined ds s ->
  exists r s',
    StartStreamingAudioAndWaitForResult enroll type ids ds s = Ok (Some r) s'
    /\ m_audioPump s' = None
    /\ m_fromMicrophone s' = false
    /\ m_totalAudioinMS s' = 0
    /\ m_codecAdapter s' = m_codecAdapter s
    /\ m_keepFactoryAlive s' = m_keepFactoryAlive s.
Proof.
  intros Hpump HT Hacc.
  destruct (StartStreaming_cycle enroll type ids ds s pump T Hpump HT)
    as [U | (r & s' & Hrun & H1 & H2 & H3 & _ & H5 & H6 & _)].
  - exfalso. rewrite (StartStreaming_until_wait _ _ _ _ _ _ _ Hpump HT) in U.
    destruct (started_fields enroll type ids pump T s Hpump)
      as (_ & _ & _ & _ & _ & _ & _ & _ & Hmic & Havg & _).
    assert (Hacc' : accounting_defined ds (started enroll type ids pump T s)).
    { unfold accounting_defined. rewrite Hmic, Havg. exact Hacc. }
    pose proof (wait_for_defined (length (promises s)) (clock s)
                  (T + ONE_MINUTE_MS) ds _
                  (started_valid enroll type ids pump T s Hpump) Hacc') as Hd.
    destruct (wait_for_spec (length (promises s)) (clock s)
                (T + ONE_MINUTE_MS) ds (started enroll type ids pump T s))
      as [U' | (status & s' & Hw & _ & _ & Hr & _)]; [contradiction|].
    rewrite Hw in U. destruct status; [|discriminate].
    destruct (Hr eq_refl) as [v Hv]. rewrite Hv in U. discriminate.
  - exists r, s'. repeat split; assumption.
Qed.

(** ** The deadline *)

Lemma started_channel_open enroll type ids pump T s :
  m_audioPump s = Some pump ->
  promises (started enroll type ids pump T s) !! length (promises s)
  = Some None.
Proof.
  intros Hpump.
  destruct (started_fields enroll type ids pump T s Hpump)
    as (_ & _ & _ & Hproms & _).
  rewrite Hproms. rewrite lookup_app_r by lia.
  replace (length (promises s) - length (promises s))%nat with 0%nat by lia.
  reflexivity.
Qed.

Lemma wait_for_cons future start deadline t cb rest s :
  wait_for future start deadline ((t, cb) :: rest) s
  = match promises s !! future with
    | Some (Some _) => Ok ready s
    | _ =>
        if (0 <=? t) && (t <=? deadline) then
          match deliver cb (set_clock (start + t) s) with
          | Ok _ s' => wait_for future start deadline rest s'
          | Throw _ s' => wait_for future start deadline rest s'
          | Undefined => Undefined
          end
        else Ok timeout (set_clock (start + Z.max 0 deadline) s)
    end.
Proof. reflexivity. Qed.

Lemma wait_for_ready future start deadline ds s v :
  promises s !! future = Some (Some v) ->
  wait_for future start deadline ds s = Ok ready s.
Proof. intros H. destruct ds as [|[t cb] rest]; simpl; rewrite H; reflexivity. Qed.

(** X6. The deadline of the wait is the timeout plus 60000 milliseconds,
    exactly.  When the first call of the pump thread comes later than that,
    nothing is delivered and the streaming call returns the bail-out error at
    the deadline.  When an [Error] is the first call and comes at a time [t]
    within the deadline, the streaming call returns the error result of its
    message at time [t]. *)
Theorem wait_ends_at_timeout_plus_one_minute
    (enroll : bool) (type : VoiceProfileType) (ids : list string)
    (rest : list (Z * Callback)) (s : Session) (pump : AudioPump) (T t : Z) :
  m_audioPump s = Some pump -> GetMicrophoneTimeout s = Ok T s ->
  (forall cb, T + 60000 < t ->
     StartStreamingAudioAndWaitForResult enroll type ids ((t, cb) :: rest) s
     = Ok (Some (ErrorResult BAILED_OUT))
         (CleanupAfterEachAudioPumping
            (set_clock (clock s + Z.max 0 (T + 60000))
               (started enroll type ids pump T s))))
  /\ (forall msg, 0 <= t <= T + 60000 ->
      StartStreamingAudioAndWaitForResult enroll type ids
        ((t, CbError msg) :: rest) s
      = Ok (Some (ErrorResult msg))
          (CleanupAfterEachAudioPumping
             (resolved (length (promises s)) (ErrorResult msg)
                (set_clock (clock s + t) (started enroll type ids pump T s))))).
Proof.
  intros Hpump HT.
  pose proof (started_channel_open enroll type ids pump T s Hpump) as Hopen.
  destruct (started_fields enroll type ids pump T s Hpump)
    as (_ & _ & _ & _ & Hdone & _).
  split.
  - intros cb Hlate.
    rewrite (StartStreaming_until_wait _ _ _ _ _ _ _ Hpump HT).
    rewrite wait_for_cons, Hopen.
    replace ((0 <=? t) && (t <=? T + ONE_MINUTE_MS)) with false; [reflexivity|].
    symmetry. apply andb_false_iff. right. apply Z.leb_gt.
    unfold ONE_MINUTE_MS. lia.
  - intros msg Hin.
    rewrite (StartStreaming_until_wait _ _ _ _ _ _ _ Hpump HT).
    rewrite wait_for_cons, Hopen.
    replace ((0 <=? t) && (t <=? T + ONE_MINUTE_MS)) with true.
    2:{ symmetry. apply andb_true_iff. unfold ONE_MINUTE_MS.
        split; apply Z.leb_le; lia. }
    cbn [deliver].
    rewrite (Error_open msg (length (promises s))); [|exact Hdone|exact Hopen].
    assert (Hres : promises
                     (resolved (length (promises s)) (ErrorResult msg)
                        (set_clock (clock s + t)
                           (started enroll type ids pump T s)))
                   !! length (promises s) = Some (Some (ErrorResult msg)))
      by (apply resolved_lookup; exact Hopen).
    rewrite (wait_for_ready _ _ _ _ _ _ Hres), Hres. reflexivity.
Qed.

(** ** Channels of earlier cycles *)

Lemma set_value_other p r s s' q :
  (set_value p r s = Ok tt s' \/ exists e, set_value p r s = Throw e s') ->
  q <> p -> promises s' !! q = promises s !! q.
Proof.
  unfold set_value.
  destruct (promises s !! p) as [[v|]|]; intros [H | [e H]] Hq;
    try discriminate; inversion H; subst; try reflexivity.
  simpl. apply list_lookup_insert_ne. congruence.
Qed.

Lemma deliver_other cb s s' q :
  (deliver cb s = Ok tt s' \/ exists e, deliver cb s = Throw e s') ->
  m_audioIsDone s <> Some q -> promises s' !! q = promises s !! q.
Proof.
  intros H Hq.
  assert (Hsf : forall pformat s0 s1,
             (SetFormat pformat s0 = Ok tt s1
              \/ exists e, SetFormat pformat s0 = Throw e s1) ->
             m_audioIsDone s0 <> Some q ->
             promises s1 !! q = promises s0 !! q).
  { clear. intros pformat s0 s1. unfold SetFormat.
    destruct (m_reco s0).
    2:{ intros [H | [e H]] _; try discriminate; inversion H; reflexivity. }
    destruct pformat as [f|]; simpl.
    - destruct (m_audioIsDone s0); intros [H | [e H]] _; try discriminate;
        inversion H; reflexivity.
    - destruct (m_audioIsDone s0) as [p|] eqn:Hp.
      2:{ intros [H | [e H]] _; try discriminate; inversion H; reflexivity. }
      unfold bind, modify.
      set (s2 := log RecoGetResult (log RecoFlushAudio s0)).
      intros H Hq.
      assert (Hne : q <> p) by congruence.
      destruct (set_value p _ s2) as [[] s3 | e3 s3 |] eqn:Hset;
        destruct H as [H | [e H]]; try discriminate; inversion H; subst.
      + simpl. eapply (set_value_other p _ s2 s3 q); [left; exact Hset | exact Hne].
      + eapply (set_value_other p _ s2 s1 q); [right; eexists; exact Hset | exact Hne]. }
  destruct cb as [pformat|chunk|msg]; simpl in H.
  - apply (Hsf pformat); assumption.
  - unfold ProcessAudio in H. destruct (m_reco s) eqn:Hreco.
    2:{ destruct H as [H | [e H]]; try discriminate; inversion H; reflexivity. }
    simpl in H. destruct (m_fromMicrophone s).
    2:{ destruct H as [H | [e H]]; try discriminate; inversion H; reflexivity. }
    destruct (FromBytesToMilisecond _ _).
    2:{ destruct H as [H | [e H]]; discriminate. }
    destruct (counter_reached _ _ _).
    + apply Hsf in H; [exact H | exact Hq].
    + destruct H as [H | [e H]]; try discriminate; inversion H; reflexivity.
  - unfold Error in H. destruct (m_audioIsDone s) as [p|] eqn:Hp.
    + eapply set_value_other; [exact H | congruence].
    + destruct H as [H | [e H]]; try discriminate; inversion H; reflexivity.
Qed.

Lemma wait_for_other future start deadline ds q : forall s status s',
  wait_for future start deadline ds s = Ok status s' ->
  m_audioIsDone s <> Some q -> promises s' !! q = promises s !! q.
Proof.
  induction ds as [|[t cb] rest IH]; intros s status s' Hw Hq; simpl in Hw.
  - destruct (promises s !! future) as [[v|]|]; inversion Hw; reflexivity.
  - assert (Hgo :
      (if (0 <=? t) && (t <=? deadline)
       then match deliver cb (set_clock (start + t) s) with
            | Ok _ s' => wait_for future start deadline rest s'
            | Throw _ s' => wait_for future start deadline rest s'
            | Undefined => Undefined
            end
       else Ok timeout (set_clock (start + Z.max 0 deadline) s))
      = Ok status s' -> promises s' !! q = promises s !! q).
    { destruct ((0 <=? t) && (t <=? deadline)).
      2:{ intros H; inversion H; reflexivity. }
      assert (Hnext : forall s1,
                 (deliver cb (set_clock (start + t) s) = Ok tt s1
                  \/ exists e, deliver cb (set_clock (start + t) s) = Throw e s1) ->
                 wait_for future start deadline rest s1 = Ok status s' ->
                 promises s' !! q = promises s !! q).
      { intros s1 Hd Hw1.
        pose proof (deliver_kept cb _ _ Hd) as K.
        pose proof (deliver_other cb _ _ q Hd Hq) as Ho. simpl in Ho.
        rewrite <- Ho. apply (IH s1 status s' Hw1).
        destruct K as (_ & _ & _ & _ & _ & _ & _ & _ & [K9 | K9]);
          rewrite K9; [exact Hq | discriminate]. }
      destruct (deliver cb (set_clock (start + t) s)) as [[] s1 | e s1 |] eqn:Hd.
      - apply Hnext. left. reflexivity.
      - apply Hnext. right. eexists. reflexivity.
      - discriminate. }
    destruct (promises s !! future) as [[v|]|];
      [inversion Hw; reflexivity | exact (Hgo Hw) | exact (Hgo Hw)].
Qed.

(** X7. A streaming call that has a pump and reads its timeout gives its
    cycle a channel of its own: the shared states of earlier cycles, resolved
    or not, are the same after the call as before it, whatever the pump
    thread called.  (When the timeout cannot be read no channel is made, and
    the failure goes to [Error] on whatever the member still points to.) *)
Theorem streaming_call_leaves_earlier_channels
    (enroll : bool) (type : VoiceProfileType) (ids : list string)
    (ds : list (Z * Callback)) (s : Session) (pump : AudioPump) (T : Z)
    (r : option RecognitionResult) (s' : Session) (q : nat) :
  m_audioPump s = Some pump -> GetMicrophoneTimeout s = Ok T s ->
  StartStreamingAudioAndWaitForResult enroll type ids ds s = Ok r s' ->
  (q < length (promises s))%nat ->
  promises s' !! q = promises s !! q.
Proof.
  intros Hpump HT Hrun Hq.
  rewrite (StartStreaming_until_wait _ _ _ _ _ _ _ Hpump HT) in Hrun.
  destruct (started_fields enroll type ids pump T s Hpump)
    as (_ & _ & _ & Hproms & Hdone & _).
  assert (Hstart : promises (started enroll type ids pump T s) !! q
                   = promises s !! q)
    by (rewrite Hproms; apply lookup_app_l; exact Hq).
  assert (Hne : m_audioIsDone (started enroll type ids pump T s) <> Some q)
    by (rewrite Hdone; intros H; inversion H; lia).
  destruct (wait_for _ _ _ _ _) as [status s1 | e s1 |] eqn:Hw;
    [|exfalso|discriminate].
  - pose proof (wait_for_other _ _ _ _ q _ _ _ Hw Hne) as Ho.
    destruct (Cleanup_fields s1) as (_ & _ & _ & _ & _ & _ & _ & C8 & _).
    destruct status.
    + destruct (promises s1 !! length (promises s)) as [[v|]|];
        inversion Hrun; subst.
      rewrite C8, Ho. exact Hstart.
    + inversion Hrun; subst. rewrite C8, Ho. exact Hstart.
  - destruct (wait_for_spec (length (promises s)) (clock s)
                (T + ONE_MINUTE_MS) ds (started enroll type ids pump T s))
      as [U | (status & s2 & Hw2 & _)]; congruence.
Qed.

(** ** Termination, again *)

(** X8. [Term] on a pump that is processing, when the channel the member
    points to already holds a value (an earlier [Error] resolved it), stops
    the pump and then throws [promise_already_satisfied] out of [Error]:
    nothing is closed or released, the pump, the codec adapter, the engine
    adapter and the factory reference all stay in place. *)
Theorem Term_throws_when_the_channel_is_resolved
    (s : Session) (pump : AudioPump) (p : nat) (r : RecognitionResult) :
  m_audioPump s = Some pump -> pump_state pump = Processing ->
  m_audioIsDone s = Some p -> promises s !! p = Some (Some r) ->
  Term s
  = Throw future_error_promise_already_satisfied
      (log PumpStopPump (set_audioPump (Some (with_state Idle pump)) s))
  /\ m_codecAdapter
       (log PumpStopPump (set_audioPump (Some (with_state Idle pump)) s))
     = m_codecAdapter s
  /\ m_reco (log PumpStopPump (set_audioPump (Some (with_state Idle pump)) s))
     = m_reco s
  /\ m_keepFactoryAlive
       (log PumpStopPump (set_audioPump (Some (with_state Idle pump)) s))
     = m_keepFactoryAlive s.
Proof.
  intros Hpump Hstate Hp Hres.
  split; [|repeat split].
  unfold Term, bind, modify, ret. rewrite Hpump, Hstate. simpl.
  rewrite Hp. unfold Error. simpl. rewrite Hp. unfold set_value. simpl.
  rewrite Hres. reflexivity.
Qed.

Lemma term_if_members {A : Type} (o : option A) (a : Action) (s : Session) :
  m_audioPump (term_if o a s) = m_audioPump s
  /\ m_keepFactoryAlive (term_if o a s) = m_keepFactoryAlive s
  /\ m_codecAdapter (term_if o a s) = m_codecAdapter s
  /\ m_reco (term_if o a s) = m_reco s.
Proof. destruct o; repeat split; reflexivity. Qed.

(** What the last four steps of [Term] leave. *)
Lemma released_members (s : Session) :
  let s1 := set_audioPump None (term_if (m_audioPump s) PumpTerm s) in
  let s2 :=
    set_keepFactoryAlive None (term_if (m_keepFactoryAlive s1) FactoryTerm s1) in
  let s3 := set_codecAdapter None (term_if (m_codecAdapter s2) CodecTerm s2) in
  let s4 := set_reco None (term_if (m_reco s3) RecoTerm s3) in
  m_audioPump s4 = None /\ m_keepFactoryAlive s4 = None
  /\ m_codecAdapter s4 = None /\ m_reco s4 = None.
Proof.
  intros s1 s2 s3 s4.
  assert (H1 : m_audioPump s1 = None) by reflexivity.
  assert (H2 : m_audioPump s2 = None /\ m_keepFactoryAlive s2 = None).
  { unfold s2. cbn [m_audioPump m_keepFactoryAlive set_keepFactoryAlive].
    destruct (term_if_members (m_keepFactoryAlive s1) FactoryTerm s1)
      as (E & _). rewrite E. split; [exact H1 | reflexivity]. }
  assert (H3 : m_audioPump s3 = None /\ m_keepFactoryAlive s3 = None
               /\ m_codecAdapter s3 = None).
  { unfold s3.
    cbn [m_audioPump m_keepFactoryAlive m_codecAdapter set_codecAdapter].
    destruct (term_if_members (m_codecAdapter s2) CodecTerm s2)
      as (E1 & E2 & _). rewrite E1, E2.
    destruct H2 as [A B]. repeat split; assumption. }
  unfold s4.
  cbn [m_audioPump m_keepFactoryAlive m_codecAdapter m_reco set_reco].
  destruct (term_if_members (m_reco s3) RecoTerm s3) as (E1 & E2 & E3 & _).
  rewrite E1, E2, E3. destruct H3 as (A & B & C). repeat split; assumption.
Qed.

Lemma Term_released (s : Session) :
  m_audioPump s = None -> m_keepFactoryAlive s = None ->
  m_codecAdapter s = None -> m_reco s = None ->
  Term s = Ok tt (log ThreadServiceTerm s).
Proof.
  destruct s as [factory pmp codec reco done mic avg total tmo proms props tr clk].
  simpl. intros -> -> -> ->. reflexivity.
Qed.

(** X9. Terminating twice releases nothing twice: after a [Term] that
    returned, a second [Term] only terminates the thread service again and
    resolves nothing. *)
Theorem Term_twice (s s1 : Session) :
  Term s = Ok tt s1 ->
  Term s1 = Ok tt (log ThreadServiceTerm s1).
Proof.
  intros H.
  assert (Hnone : m_audioPump s1 = None /\ m_keepFactoryAlive s1 = None
                  /\ m_codecAdapter s1 = None /\ m_reco s1 = None).
  { revert H. unfold Term. unfold bind at 1.
    match goal with
    | |- match ?X with _ => _ end = _ -> _ =>
        destruct X as [[] s0 | e s0 |]
    end; try discriminate.
    unfold bind, modify. intros H. inversion H; subst; clear H.
    apply (released_members
             (log ThreadServiceTerm (term_if (m_codecAdapter s0) CodecClose s0))). }
  destruct Hnone as (Hp & Hf & Hc & Hr). apply Term_released; assumption.
Qed.

(** ** Initialisation, again *)

(** X10. When a stream declares a format that is not PCM and no codec adapter
    can be created, [InitFromStream] returns without a pump (the failure goes
    to the error path), and the streaming call that follows returns the
    pump-access error without starting anything. *)
Theorem codec_unavailable_then_streaming_reports_no_pump
    (s : Session) (stream : AudioStream) (enroll : bool)
    (type : VoiceProfileType) (ids : list string) (ds : list (Z * Callback)) :
  m_audioPump s = None -> m_audioIsDone s = None ->
  wFormatTag (stream_format stream) <> WAVE_FORMAT_PCM ->
  InitFromStream_task stream false s
  = Throw (ExceptionWithCallStack SPXERR_GSTREAMER_NOT_FOUND_ERROR)
      (set_codecAdapter None s)
  /\ InitFromStream stream false s = Ok tt (set_codecAdapter None s)
  /\ exists s',
       StartStreamingAudioAndWaitForResult enroll type ids ds
         (set_codecAdapter None s)
       = Ok (Some (ErrorResult "Error accessing audio pump")) s'
       /\ m_audioPump s' = None
       /\ trace s' = trace s.
Proof.
  intros Hpump Hdone Htag.
  assert (Htask : InitFromStream_task stream false s
                  = Throw (ExceptionWithCallStack
                             SPXERR_GSTREAMER_NOT_FOUND_ERROR)
                      (set_codecAdapter None s)).
  { unfold InitFromStream_task. rewrite Hpump.
    apply Z.eqb_neq in Htag. rewrite Htag. reflexivity. }
  split; [exact Htask|]. split.
  - unfold InitFromStream, ExecuteAsync.
    rewrite (CreateTask_of_throw _ _ _ _ _ Htask). unfold bind, ret.
    rewrite Error_without_channel by exact Hdone. reflexivity.
  - rewrite StartStreaming_without_pump by exact Hpump.
    change (m_reco (set_codecAdapter None s)) with (m_reco s).
    destruct (m_reco s); eexists; (split; [reflexivity|]); simpl;
      (split; [exact Hpump | reflexivity]).
Qed.

(** X11. The cleanup after a cycle does not release the codec adapter, and
    [InitFromStream] attaches the pump to the codec adapter whenever the
    member is set.  So after a cycle on a compressed stream, a PCM stream
    handed to [InitFromStream] is not read directly: the new pump reads from
    the codec adapter of the earlier cycle and has that adapter's format. *)
Theorem pcm_stream_after_compressed_cycle_reads_through_the_codec
    (enroll : bool) (type : VoiceProfileType) (ids : list string)
    (ds : list (Z * Callback)) (s : Session) (pump : AudioPump) (T : Z)
    (codec : CodecAdapter) (r : option RecognitionResult) (s1 : Session)
    (stream : AudioStream) (ca : bool) :
  m_audioPump s = Some pump -> m_codecAdapter s = Some codec ->
  GetMicrophoneTimeout s = Ok T s ->
  StartStreamingAudioAndWaitForResult enroll type ids ds s = Ok r s1 ->
  wFormatTag (stream_format stream) = WAVE_FORMAT_PCM ->
  m_codecAdapter s1 = Some codec
  /\ exists s2,
       InitFromStream stream ca s1 = Ok tt s2
       /\ m_audioPump s2
          = Some {| pump_source := CSpxAudioPump CodecReader;
                    pump_state := Idle; pump_format := codec_format codec |}
       /\ trace s2 = (trace s1 ++ [PumpSetReader CodecReader])%list.
Proof.
  intros Hpump Hcodec HT Hrun Htag.
  destruct (StartStreaming_cycle enroll type ids ds s pump T Hpump HT)
    as [U | (r' & s' & Hrun' & Hp1 & _ & _ & _ & Hc1 & _)]; [congruence|].
  rewrite Hrun in Hrun'. inversion Hrun'; subst s'.
  rewrite Hcodec in Hc1. split; [exact Hc1|].
  unfold InitFromStream, ExecuteAsync, CreateTask, InitFromStream_task.
  rewrite Hp1. apply Z.eqb_eq in Htag. rewrite Htag, Hc1. simpl.
  eexists. split; [reflexivity|]. split; reflexivity.
Qed.

(** X12. [InitFromFile] stores the new pump in the session before it opens
    the file.  When the file cannot be opened the pump therefore stays, and
    a second [InitFromFile], even with a file that can be opened, is refused
    as already initialized and changes nothing. *)
Theorem InitFromFile_failed_open_blocks_a_retry
    (s : Session) (f1 f2 : string) (format : WAVEFORMATEX) :
  m_audioPump s = None -> m_audioIsDone s = None ->
  exists s1,
    InitFromFile f1 None s = Ok tt s1
    /\ m_audioPump s1
       = Some {| pump_source := CSpxWavFilePump f1; pump_state := Idle;
                 pump_format := empty_format |}
    /\ InitFromFile_task f2 (Some format) s1
       = Throw (ExceptionWithCallStack SPXERR_ALREADY_INITIALIZED) s1
    /\ InitFromFile f2 (Some format) s1 = Ok tt s1.
Proof.
  intros Hpump Hdone.
  unfold InitFromFile, ExecuteAsync, CreateTask, InitFromFile_task.
  rewrite Hpump. unfold bind, ret, Error. simpl. rewrite Hdone.
  eexists. split; [reflexivity|]. simpl. rewrite Hdone.
  repeat split; reflexivity.
Qed.

(** ** The task boundary *)

(** X13. The only exception that leaves a task made by [CreateTask] is the
    [promise_already_satisfied] of [Error] itself; every exception of the
    wrapped function is caught. *)
Theorem CreateTask_lets_only_future_error_escape {A : Type}
    (unset : A) (func : M A) (s s' : Session) (e : Exception) :
  CreateTask unset func s = Throw e s' ->
  e = future_error_promise_already_satisfied
  /\ exists e0 p r,
       func s = Throw e0 s'
       /\ m_audioIsDone s' = Some p
       /\ promises s' !! p = Some (Some r).
Proof.
  unfold CreateTask.
  destruct (func s) as [a s1 | e0 s1 |]; try discriminate.
  unfold bind, ret, Error.
  destruct (m_audioIsDone s1) as [p|] eqn:Hp; [|discriminate].
  unfold set_value.
  destruct (promises s1 !! p) as [[r0|]|] eqn:Hl; try discriminate.
  intros H. inversion H; subst.
  split; [reflexivity|]. exists e0, p, r0. repeat split; assumption.
Qed.

(** ** Chunks *)

(** X14. With a source other than the microphone, [ProcessAudio] hands each
    chunk to the engine adapter, in the order of arrival, and does nothing
    else: no duration is counted, nothing is flushed or resolved. *)
Theorem process_chunks_forwards_in_order (chunks : list DataChunk) :
  forall s : Session,
  m_reco s <> None -> m_fromMicrophone s = false ->
  exists s',
    process_chunks chunks s = Ok tt s'
    /\ trace s' = (trace s ++ map RecoProcessAudio chunks)%list
    /\ m_totalAudioinMS s' = m_totalAudioinMS s
    /\ promises s' = promises s
    /\ m_audioIsDone s' = m_audioIsDone s
    /\ m_audioPump s' = m_audioPump s.
Proof.
  induction chunks as [|c rest IH]; intros s Hreco Hmic.
  - exists s. simpl. rewrite app_nil_r. repeat split; reflexivity.
  - simpl. unfold bind, ProcessAudio.
    destruct (m_reco s) eqn:Hr; [|congruence]. simpl. rewrite Hmic.
    destruct (IH (log (RecoProcessAudio c) s))
      as (s' & Hrun & Htr & Htot & Hproms & Hdone & Hpump).
    + simpl. rewrite Hr. discriminate.
    + exact Hmic.
    + exists s'. split; [exact Hrun|].
      rewrite Htr, Htot, Hproms, Hdone, Hpump. simpl.
      rewrite <- app_assoc. repeat split; reflexivity.
Qed.

(** X15. As long as the counted duration stays below the timeout,
    [ProcessAudio] resolves nothing: the channel stays open, the engine
    adapter is not flushed, and the counter holds the sum of the
    durations. *)
Theorem timeout_not_reached_keeps_the_channel_open
    (chunks : list DataChunk) : forall (s : Session) (p : nat),
  m_reco s <> None -> m_fromMicrophone s = true ->
  m_avgBytesPerSecond s <> 0 ->
  m_audioIsDone s = Some p -> promises s !! p = Some None ->
  duration_reaches counter (m_avgBytesPerSecond s) (m_microphoneTimeoutInMS s)
    (m_totalAudioinMS s) chunks = false ->
  exists s',
    process_chunks chunks s = Ok tt s'
    /\ promises s' = promises s
    /\ m_audioIsDone s' = Some p
    /\ trace s' = (trace s ++ map RecoProcessAudio chunks)%list
    /\ m_totalAudioinMS s'
       = fold_left
           (fun total c =>
              counter_add counter total
                (to_uint32 (size c * 1000) / m_avgBytesPerSecond s))
           chunks (m_totalAudioinMS s).
Proof.
  induction chunks as [|c rest IH]; intros s p Hreco Hmic Havg Hp Hopen Hno.
  - exists s. simpl. rewrite app_nil_r. repeat split; try reflexivity.
    exact Hp.
  - simpl in Hno. unfold FromBytesToMilisecond in Hno.
    pose proof Havg as Havgb. apply Z.eqb_neq in Havgb.
    rewrite Havgb in Hno. apply orb_false_iff in Hno.
    destruct Hno as [Hnow Hrest].
    pose proof (ProcessAudio_microphone c s Hreco Hmic Havg) as Hstep.
    cbv zeta in Hstep.
    set (s0 := set_totalAudioinMS
                 (counter_add counter (m_totalAudioinMS s)
                    (to_uint32 (size c * 1000) / m_avgBytesPerSecond s))
                 (log (RecoProcessAudio c) s)) in *.
    change (m_totalAudioinMS s0)
      with (counter_add counter (m_totalAudioinMS s)
              (to_uint32 (size c * 1000) / m_avgBytesPerSecond s)) in Hstep.
    rewrite Hnow in Hstep.
    destruct (IH s0 p) as (s' & Hrun & Hproms & Hdone & Htr & Htot);
      try assumption.
    exists s'. split; [simpl; unfold bind; rewrite Hstep; exact Hrun|].
    rewrite Hproms, Hdone, Htr, Htot. unfold s0. simpl.
    rewrite <- app_assoc. repeat split; reflexivity.
Qed.

(** X16. [StopPump] and the cleanup are idempotent, and the cleanup stops a
    pump that is processing before it releases it. *)
Theorem cleanup_is_idempotent (s : Session) :
  StopPump (StopPump s) = StopPump s
  /\ CleanupAfterEachAudioPumping (CleanupAfterEachAudioPumping s)
     = CleanupAfterEachAudioPumping s
  /\ trace (CleanupAfterEachAudioPumping s)
     = (trace s
        ++ match m_audioPump s with
           | Some pump =>
               if is_Processing (pump_state pump)
               then [PumpStopPump; PumpTerm] else [PumpTerm]
           | None => []
           end)%list.
Proof.
  destruct s as [factory pmp codec reco done mic avg total tmo proms props tr clk].
  unfold CleanupAfterEachAudioPumping, StopPump, term_if. simpl.
  destruct pmp as [[src [| |] fmt]|]; simpl; rewrite <- ?app_assoc, ?app_nil_r;
    repeat split; reflexivity.
Qed.

(** ** The channel of a cycle that timed out *)

Lemma deliver_member cb s s' p :
  m_audioIsDone s = Some p ->
  (deliver cb s = Ok tt s' \/ exists e, deliver cb s = Throw e s') ->
  m_audioIsDone s' = Some p \/ exists v, promises s' !! p = Some (Some v).
Proof.
  intros Hp.
  assert (Hsv : forall r s0 s1,
             m_audioIsDone s0 = Some p ->
             (set_value p r s0 = Ok tt s1
              \/ exists e, set_value p r s0 = Throw e s1) ->
             m_audioIsDone s1 = Some p
             /\ exists v, promises s1 !! p = Some (Some v)).
  { clear. intros r s0 s1 Hp. unfold set_value.
    destruct (promises s0 !! p) as [[v|]|] eqn:Hl; intros [H | [e H]];
      try discriminate; inversion H; subst.
    - split; [exact Hp | eauto].
    - split; [exact Hp|]. exists r. simpl. apply list_lookup_insert_eq.
      apply lookup_lt_Some in Hl. exact Hl. }
  assert (Hsf : forall pformat s0 s1,
             m_audioIsDone s0 = Some p ->
             (SetFormat pformat s0 = Ok tt s1
              \/ exists e, SetFormat pformat s0 = Throw e s1) ->
             m_audioIsDone s1 = Some p
             \/ exists v, promises s1 !! p = Some (Some v)).
  { clear - Hsv. intros pformat s0 s1 Hp. unfold SetFormat.
    destruct (m_reco s0).
    2:{ intros [H | [e H]]; try discriminate; inversion H; subst.
        left; exact Hp. }
    destruct pformat as [f|]; simpl.
    - intros [H | [e H]]; try discriminate; inversion H; subst.
      left; exact Hp.
    - rewrite Hp. unfold bind, modify.
      set (s2 := log RecoGetResult (log RecoFlushAudio s0)).
      destruct (set_value p _ s2) as [[] s3 | e3 s3 |] eqn:Hset;
        intros [H | [e H]]; try discriminate; inversion H; subst.
      + right. simpl. eapply (Hsv _ s2 s3); [exact Hp | left; exact Hset].
      + right. eapply (Hsv _ s2 s1); [exact Hp | right; eexists; exact Hset]. }
  destruct cb as [pformat|chunk|msg]; simpl.
  - apply Hsf. exact Hp.
  - unfold ProcessAudio. destruct (m_reco s) eqn:Hreco.
    2:{ intros [H | [e H]]; try discriminate; inversion H; subst.
        left; exact Hp. }
    simpl. destruct (m_fromMicrophone s).
    2:{ intros [H | [e H]]; try discriminate; inversion H; subst.
        left; exact Hp. }
    destruct (FromBytesToMilisecond _ _).
    2:{ intros [H | [e H]]; discriminate. }
    destruct (counter_reached _ _ _).
    + apply Hsf. exact Hp.
    + intros [H | [e H]]; try discriminate; inversion H; subst.
      left; exact Hp.
  - unfold Error. rewrite Hp. intros H. right.
    eapply Hsv; [exact Hp | exact H].
Qed.

Lemma wait_for_member future start deadline ds : forall s status s',
  m_audioIsDone s = Some future ->
  wait_for future start deadline ds s = Ok status s' ->
  m_audioIsDone s' = Some future
  \/ exists v, promises s' !! future = Some (Some v).
Proof.
  induction ds as [|[t cb] rest IH]; intros s status s' Hp Hw.
  - simpl in Hw.
    destruct (promises s !! future) as [[v|]|]; inversion Hw; subst;
      left; exact Hp.
  - rewrite wait_for_cons in Hw.
    assert (Hgo :
      (if (0 <=? t) && (t <=? deadline)
       then match deliver cb (set_clock (start + t) s) with
            | Ok _ s' => wait_for future start deadline rest s'
            | Throw _ s' => wait_for future start deadline rest s'
            | Undefined => Undefined
            end
       else Ok timeout (set_clock (start + Z.max 0 deadline) s))
      = Ok status s' ->
      m_audioIsDone s' = Some future
      \/ exists v, promises s' !! future = Some (Some v)).
    { destruct ((0 <=? t) && (t <=? deadline)).
      2:{ intros H; inversion H; subst. left; exact Hp. }
      assert (Hnext : forall s1,
                 (deliver cb (set_clock (start + t) s) = Ok tt s1
                  \/ exists e, deliver cb (set_clock (start + t) s) = Throw e s1) ->
                 wait_for future start deadline rest s1 = Ok status s' ->
                 m_audioIsDone s' = Some future
                 \/ exists v, promises s' !! future = Some (Some v)).
      { intros s1 Hd Hw1.
        destruct (deliver_member cb (set_clock (start + t) s) s1 future Hp Hd)
          as [Hm | [v Hv]].
        - apply (IH s1 status s' Hm Hw1).
        - rewrite (wait_for_ready _ _ _ _ _ _ Hv) in Hw1.
          inversion Hw1; subst. right. eauto. }
      destruct (deliver cb (set_clock (start + t) s)) as [[] s1 | e s1 |] eqn:Hd.
      - apply Hnext. left. reflexivity.
      - apply Hnext. right. eexists. reflexivity.
      - discriminate. }
    destruct (promises s !! future) as [[v|]|] eqn:Hl;
      [inversion Hw; subst; right; eauto | exact (Hgo Hw) | exact (Hgo Hw)].
Qed.

(** X17. The cleanup does not reset [m_audioIsDone].  After a streaming call
    whose channel got no value (the call returned the bail-out error), the
    member still points to that channel, and the channel is still open: a
    later [Error], for instance from a failed initialisation, writes its
    error result into the channel of the cycle that is over. *)
Theorem timed_out_cycle_leaves_its_channel
    (enroll : bool) (type : VoiceProfileType) (ids : list string)
    (ds : list (Z * Callback)) (s : Session) (pump : AudioPump) (T : Z)
    (r : option RecognitionResult) (s' : Session) :
  m_audioPump s = Some pump -> GetMicrophoneTimeout s = Ok T s ->
  StartStreamingAudioAndWaitForResult enroll type ids ds s = Ok r s' ->
  (forall v, promises s' !! length (promises s) <> Some (Some v)) ->
  r = Some (ErrorResult BAILED_OUT)
  /\ m_audioIsDone s' = Some (length (promises s))
  /\ promises s' !! length (promises s) = Some None
  /\ forall msg,
       Error msg s'
       = Ok tt (resolved (length (promises s)) (ErrorResult msg) s').
Proof.
  intros Hpump HT Hrun Hnone.
  rewrite (StartStreaming_until_wait _ _ _ _ _ _ _ Hpump HT) in Hrun.
  destruct (started_fields enroll type ids pump T s Hpump)
    as (_ & _ & _ & Hproms & Hdone & _).
  destruct (wait_for_spec (length (promises s)) (clock s) (T + ONE_MINUTE_MS)
              ds (started enroll type ids pump T s))
    as [U | (status & s1 & Hw & K & _ & Hr & _)];
    [rewrite U in Hrun; discriminate|].
  rewrite Hw in Hrun.
  destruct (Cleanup_fields s1) as (_ & _ & _ & _ & _ & _ & C7 & C8 & _).
  assert (Hs' : s' = CleanupAfterEachAudioPumping s1
                /\ (status = ready -> False)).
  { destruct status.
    - destruct (Hr eq_refl) as [v Hv]. rewrite Hv in Hrun.
      inversion Hrun; subst. exfalso. apply (Hnone v). rewrite C8. exact Hv.
    - inversion Hrun; subst. split; [reflexivity | discriminate]. }
  destruct Hs' as [-> Hst].
  assert (Hres : r = Some (ErrorResult BAILED_OUT)).
  { destruct status; [exfalso; apply Hst; reflexivity|].
    inversion Hrun; reflexivity. }
  assert (Hmem : m_audioIsDone s1 = Some (length (promises s))).
  { destruct (wait_for_member _ _ _ _ _ _ _ Hdone Hw) as [Hm | [v Hv]];
      [exact Hm|].
    exfalso. apply (Hnone v). rewrite C8. exact Hv. }
  assert (Hopen : promises s1 !! length (promises s) = Some None).
  { destruct K as (_ & _ & _ & _ & _ & _ & _ & Hlen & _). simpl in Hlen.
    rewrite Hproms, length_app in Hlen. simpl in Hlen.
    destruct (promises s1 !! length (promises s)) as [[v|]|] eqn:Hl.
    - exfalso. apply (Hnone v). rewrite C8. exact Hl.
    - reflexivity.
    - apply lookup_ge_None in Hl. lia. }
  split; [exact Hres|]. rewrite C7, C8.
  split; [exact Hmem|]. split; [exact Hopen|].
  intros msg. apply Error_open; [rewrite C7; exact Hmem | rewrite C8; exact Hopen].
Qed.

End SessionFacts.

(** ** Runs on concrete sessions *)

(** C5, as stated, fails for the microphone timeout: with the property set to
    ["abc"] the lookup throws instead of falling back, and the streaming
    call on a microphone session returns the null result with the pump still
    idle. *)
Lemma C5_timeout_that_does_not_parse_throws :
  GetMicrophoneTimeout
    (microphone_session {[ MICROPHONE_TIMEOUT_PROPERTY := "abc" ]})
  = Throw (logic_error "error in parsingabcstoi")
      (microphone_session {[ MICROPHONE_TIMEOUT_PROPERTY := "abc" ]})
  /\ exists s',
       StartStreamingAudioAndWaitForResult recognized counter_uint32 true
         TextIndependentIdentification [] []
         (microphone_session {[ MICROPHONE_TIMEOUT_PROPERTY := "abc" ]})
       = Ok None s'
       /\ m_audioPump s'
          = Some {| pump_source := CSpxInteractiveMicrophone;
                    pump_state := Idle; pump_format := pcm16 |}
       /\ count (fun a => match a with PumpStartPump => true | _ => false end)
            (trace s') = 0%nat.
Proof.
  split; [vm_compute; reflexivity|].
  eexists. split; [vm_compute; reflexivity|].
  split; reflexivity.
Qed.

(** C2, as stated, fails: after a cycle on a stream with a compressed format
    the pump reference is cleared, but the codec adapter and the engine
    adapter are still in place. *)
Lemma C2_adapters_survive_the_cleanup :
  exists s0 s',
    InitFromStream {| stream_format := compressed |} true (initial_session ∅)
    = Ok tt s0
    /\ StartStreamingAudioAndWaitForResult recognized counter_uint32 false
         TextIndependentVerification [] [] s0
       = Ok (Some (ErrorResult BAILED_OUT)) s'
    /\ m_audioPump s' = None
    /\ m_codecAdapter s'
       = Some {| codec_format := with_output_format 1 16 16000 compressed |}
    /\ m_reco s' = Some CSpxHttpRecoEngineAdapter.
Proof.
  eexists. eexists. split; [vm_compute; reflexivity|].
  split; [vm_compute; reflexivity|]. repeat split; reflexivity.
Qed.

Lemma C1_flush_after_error_faults_witness :
  (m_reco mid_cycle <> None
   /\ m_audioIsDone mid_cycle = Some 0%nat
   /\ promises mid_cycle !! 0%nat = Some None)
  /\ SetFormat recognized None (resolved 0 (ErrorResult "x") mid_cycle)
     = Throw future_error_promise_already_satisfied
         (log RecoGetResult
            (log RecoFlushAudio (resolved 0 (ErrorResult "x") mid_cycle))).
Proof.
  split; [repeat split; try reflexivity; discriminate|].
  apply (C1_flush_after_error_faults recognized mid_cycle 0%nat "x");
    [discriminate | reflexivity | reflexivity].
Defined.

Lemma C2_cleanup_witness :
  (m_audioPump (microphone_session ∅)
   = Some {| pump_source := CSpxInteractiveMicrophone; pump_state := Idle;
             pump_format := pcm16 |}
   /\ GetMicrophoneTimeout (microphone_session ∅)
      = Ok 5000 (microphone_session ∅)
   /\ StartStreamingAudioAndWaitForResult recognized counter_uint32 true
        TextIndependentIdentification [] short_stream (microphone_session ∅)
      <> Undefined)
  /\ exists r s',
       StartStreamingAudioAndWaitForResult recognized counter_uint32 true
         TextIndependentIdentification [] short_stream (microphone_session ∅)
       = Ok (Some r) s'
       /\ m_audioPump s' = None
       /\ m_fromMicrophone s' = false
       /\ m_totalAudioinMS s' = 0
       /\ m_reco s' <> None.
Proof.
  assert (H : StartStreamingAudioAndWaitForResult recognized counter_uint32
                true TextIndependentIdentification [] short_stream
                (microphone_session ∅) <> Undefined)
    by (vm_compute; discriminate).
  split; [repeat split; try reflexivity; exact H|].
  apply (proj1
           (C2_cleanup_after_a_cycle_that_had_a_pump recognized counter_uint32
              true TextIndependentIdentification [] short_stream
              (microphone_session ∅))
           {| pump_source := CSpxInteractiveMicrophone; pump_state := Idle;
              pump_format := pcm16 |} 5000);
    [reflexivity | reflexivity | exact H].
Defined.

Lemma C3_wait_is_bounded_witness :
  (m_audioPump (microphone_session ∅)
   = Some {| pump_source := CSpxInteractiveMicrophone; pump_state := Idle;
             pump_format := pcm16 |}
   /\ GetMicrophoneTimeout (microphone_session ∅)
      = Ok 5000 (microphone_session ∅)
   /\ StartStreamingAudioAndWaitForResult recognized counter_uint32 true
        TextIndependentIdentification [] [] (microphone_session ∅)
      <> Undefined)
  /\ exists r s',
       StartStreamingAudioAndWaitForResult recognized counter_uint32 true
         TextIndependentIdentification [] [] (microphone_session ∅)
       = Ok (Some r) s'
       /\ clock (microphone_session ∅) <= clock s'
          <= clock (microphone_session ∅) + Z.max 0 (5000 + 60000)
       /\ (promises s' !! length (promises (microphone_session ∅))
           = Some (Some r)
           \/ (forall v,
                  promises s' !! length (promises (microphone_session ∅))
                  <> Some (Some v))
              /\ r = ErrorResult BAILED_OUT
              /\ clock s'
                 = clock (microphone_session ∅) + Z.max 0 (5000 + 60000)).
Proof.
  assert (H : StartStreamingAudioAndWaitForResult recognized counter_uint32
                true TextIndependentIdentification [] []
                (microphone_session ∅) <> Undefined)
    by (vm_compute; discriminate).
  split; [repeat split; try reflexivity; exact H|].
  apply (C3_wait_is_bounded_by_timeout_plus_one_minute recognized
           counter_uint32 true TextIndependentIdentification [] []
           (microphone_session ∅)
           {| pump_source := CSpxInteractiveMicrophone; pump_state := Idle;
              pump_format := pcm16 |} 5000);
    [reflexivity | reflexivity | exact H].
Defined.

Lemma C4_timeout_reached_witness :
  (m_reco mid_cycle <> None
   /\ m_fromMicrophone mid_cycle = true
   /\ m_avgBytesPerSecond mid_cycle <> 0
   /\ m_audioIsDone mid_cycle = Some 0%nat
   /\ promises mid_cycle !! 0%nat = Some None
   /\ duration_reaches counter_uint32 (m_avgBytesPerSecond mid_cycle)
        (m_microphoneTimeoutInMS mid_cycle) (m_totalAudioinMS mid_cycle)
        (repeat one_second 7) = true)
  /\ exists before c after s1 s' tr,
       repeat one_second 7 = (before ++ c :: after)%list
       /\ duration_reaches counter_uint32 (m_avgBytesPerSecond mid_cycle)
            (m_microphoneTimeoutInMS mid_cycle) (m_totalAudioinMS mid_cycle)
            before = false
       /\ process_chunks recognized counter_uint32 (before ++ [c]) mid_cycle
          = Ok tt s1
       /\ promises s1 = <[0%nat := Some (recognized tr)]> (promises mid_cycle)
       /\ process_chunks recognized counter_uint32 (repeat one_second 7)
            mid_cycle = Ok tt s'
       /\ promises s' = promises s1
       /\ m_audioIsDone s' = None
       /\ m_audioPump s' = m_audioPump mid_cycle
       /\ count is_flush (trace s') = S (count is_flush (trace mid_cycle))
       /\ count is_set_value (trace s')
          = S (count is_set_value (trace mid_cycle)).
Proof.
  split;
    [repeat split; try reflexivity; discriminate|].
  apply (C4_timeout_reached_resolves_exactly_once recognized counter_uint32
           (repeat one_second 7) mid_cycle 0%nat);
    try reflexivity; discriminate.
Defined.

Lemma C5_parse_failure_witness :
  (m_audioPump (initial_session {[ "OutputPCMChannelCount" := "two" ]}) = None
   /\ wFormatTag compressed <> WAVE_FORMAT_PCM
   /\ stoi (GetStringValue "OutputPCMChannelCount" "1"
              (initial_session {[ "OutputPCMChannelCount" := "two" ]}))
      = inl invalid_argument)
  /\ exists s',
       InitFromStream {| stream_format := compressed |} true
         (initial_session {[ "OutputPCMChannelCount" := "two" ]})
       = Ok tt s'
       /\ m_codecAdapter s'
          = Some {| codec_format := with_output_format 1 16 16000 compressed |}
       /\ trace s'
          = (trace (initial_session {[ "OutputPCMChannelCount" := "two" ]})
             ++ [CodecSetFormat (with_output_format 1 16 16000 compressed);
                 PumpSetReader CodecReader])%list
       /\ promises s'
          = promises (initial_session {[ "OutputPCMChannelCount" := "two" ]}).
Proof.
  split; [repeat split; try reflexivity; discriminate|].
  apply (proj1
           (C5_parse_failure_defaults_for_format_throws_for_timeout recognized
              counter_uint32
              (initial_session {[ "OutputPCMChannelCount" := "two" ]}))
           {| stream_format := compressed |});
    [reflexivity | discriminate |].
  left. exists invalid_argument. reflexivity.
Defined.

Lemma C6_terminate_witness :
  (m_audioPump mid_cycle
   = Some {| pump_source := CSpxInteractiveMicrophone;
             pump_state := Processing; pump_format := pcm16 |}
   /\ m_audioIsDone mid_cycle = Some 0%nat
   /\ promises mid_cycle !! 0%nat = Some None)
  /\ exists s',
       Term mid_cycle = Ok tt s'
       /\ trace s'
          = (trace mid_cycle
             ++ [PumpStopPump;
                 PromiseSetValue 0 (ErrorResult "Terminate the http session.")]
             ++ release_actions mid_cycle)%list
       /\ promises s'
          = <[0%nat := Some (ErrorResult "Terminate the http session.")]>
              (promises mid_cycle)
       /\ m_audioPump s' = None /\ m_keepFactoryAlive s' = None
       /\ m_codecAdapter s' = None /\ m_reco s' = None.
Proof.
  split; [repeat split; reflexivity|].
  apply (proj1 (C6_terminate_stops_the_pump_then_resolves mid_cycle)
           {| pump_source := CSpxInteractiveMicrophone;
              pump_state := Processing; pump_format := pcm16 |} 0%nat);
    reflexivity.
Defined.

Lemma C7_already_initialized_witness :
  m_audioPump (microphone_session ∅)
  = Some {| pump_source := CSpxInteractiveMicrophone; pump_state := Idle;
            pump_format := pcm16 |}
  /\ InitFromFile_task "a.wav" (Some pcm16) (microphone_session ∅)
     = Throw (ExceptionWithCallStack SPXERR_ALREADY_INITIALIZED)
         (microphone_session ∅)
  /\ InitFromFile "a.wav" (Some pcm16) (microphone_session ∅)
     = ExecuteAsync (Error EmptyString) (microphone_session ∅).
Proof.
  split; [reflexivity|].
  apply (proj1
           (C7_already_initialized_goes_to_the_error_path
              (microphone_session ∅)
              {| pump_source := CSpxInteractiveMicrophone; pump_state := Idle;
                 pump_format := pcm16 |} eq_refl)
           "a.wav" (Some pcm16)).
Defined.

Lemma C9_duration_witness :
  (m_reco mid_cycle <> None /\ m_fromMicrophone mid_cycle = true
   /\ m_avgBytesPerSecond mid_cycle <> 0)
  /\ FromBytesToMilisecond (size (chunk_of 3200))
       (m_avgBytesPerSecond mid_cycle)
     = Some ((size (chunk_of 3200) * 1000) mod 2 ^ 32
             / m_avgBytesPerSecond mid_cycle).
Proof.
  split; [repeat split; try reflexivity; discriminate|].
  apply (proj1 (proj2
           (C9_duration_needs_nonzero_rate recognized counter_uint32
              mid_cycle (chunk_of 3200)
              ltac:(discriminate) eq_refl))).
  discriminate.
Defined.

Lemma C10_zero_string_witness :
  (properties (initial_session {[ MICROPHONE_TIMEOUT_PROPERTY := "+0" ]})
   !! MICROPHONE_TIMEOUT_PROPERTY = Some "+0"
   /\ "+0" <> "0" /\ stoi "+0" = inr 0)
  /\ GetMicrophoneTimeout
       (initial_session {[ MICROPHONE_TIMEOUT_PROPERTY := "+0" ]})
     = Ok 0 (initial_session {[ MICROPHONE_TIMEOUT_PROPERTY := "+0" ]}).
Proof.
  split; [repeat split; try reflexivity; discriminate|].
  apply (proj2
           (C10_only_the_string_zero_is_not_configured
              (initial_session {[ MICROPHONE_TIMEOUT_PROPERTY := "+0" ]}))
           "+0");
    [reflexivity | discriminate | reflexivity].
Defined.

(** ** The further properties on concrete sessions *)

Lemma codec_session_eq :
  InitFromStream {| stream_format := compressed |} true (initial_session ∅)
  = Ok tt codec_session.
Proof. vm_compute. reflexivity. Qed.

Lemma FromBytesToMilisecond_bounds_witness :
  (0 <= 3200 /\ 0 < 32000)
  /\ exists ms,
       FromBytesToMilisecond 3200 32000 = Some ms
       /\ 0 <= ms <= 3200 * 1000 / 32000
       /\ ms < 2 ^ 32
       /\ (3200 * 1000 < 2 ^ 32 -> ms = 3200 * 1000 / 32000)
       /\ (2 ^ 32 <= 3200 * 1000 -> 32000 <= 2 ^ 32 ->
           ms < 3200 * 1000 / 32000).
Proof.
  split; [lia|]. apply (FromBytesToMilisecond_bounds 3200 32000); lia.
Defined.

Lemma GetMicrophoneTimeout_override_witness :
  (properties (initial_session {[ MICROPHONE_TIMEOUT_PROPERTY := "-1" ]})
   !! MICROPHONE_TIMEOUT_PROPERTY = Some "-1"
   /\ "-1" <> "0" /\ stoi "-1" = inr (-1))
  /\ GetMicrophoneTimeout
       (initial_session {[ MICROPHONE_TIMEOUT_PROPERTY := "-1" ]})
     = Ok 4294967295
         (initial_session {[ MICROPHONE_TIMEOUT_PROPERTY := "-1" ]}).
Proof.
  split; [repeat split; try reflexivity; discriminate|].
  refine (proj1
            (GetMicrophoneTimeout_override_is_unsigned
               (initial_session {[ MICROPHONE_TIMEOUT_PROPERTY := "-1" ]})
               "-1" (-1) _ _ _));
    [reflexivity | discriminate | reflexivity].
Defined.

Lemma output_format_fields_witness :
  (properties (initial_session ∅) !! "OutputPCMChannelCount" = None
   /\ properties (initial_session ∅) !! "OutputPCMNumBitsPerSample" = None
   /\ properties (initial_session ∅) !! "OutputPCMSamplerate" = None)
  /\ output_format compressed (initial_session ∅)
     = with_output_format 1 16 16000 compressed.
Proof.
  split; [repeat split; reflexivity|].
  apply (proj1 (output_format_fields compressed (initial_session ∅)));
    reflexivity.
Defined.

Lemma pump_calls_keep_witness :
  deliver recognized counter_uint32 (CbError "x") mid_cycle
  = Ok tt (resolved 0 (ErrorResult "x") mid_cycle)
  /\ m_audioPump (resolved 0 (ErrorResult "x") mid_cycle)
     = m_audioPump mid_cycle.
Proof.
  split; [reflexivity|].
  apply (pump_calls_keep_what_the_session_owns recognized counter_uint32
           (CbError "x") mid_cycle (resolved 0 (ErrorResult "x") mid_cycle)).
  left. reflexivity.
Defined.

Lemma streaming_call_returns_witness :
  (m_audioPump file_session
   = Some {| pump_source := CSpxWavFilePump "a.wav"; pump_state := Idle;
             pump_format := pcm16 |}
   /\ GetMicrophoneTimeout file_session = Ok 5000 file_session
   /\ accounting_defined short_stream file_session)
  /\ exists r s',
       StartStreamingAudioAndWaitForResult recognized counter_uint32 false
         TextIndependentVerification ["profile"] short_stream file_session
       = Ok (Some r) s'
       /\ m_audioPump s' = None
       /\ m_fromMicrophone s' = false
       /\ m_totalAudioinMS s' = 0
       /\ m_codecAdapter s' = m_codecAdapter file_session
       /\ m_keepFactoryAlive s' = m_keepFactoryAlive file_session.
Proof.
  split; [repeat split; try reflexivity; left; reflexivity|].
  apply (streaming_call_returns_a_result recognized counter_uint32 false
           TextIndependentVerification ["profile"] short_stream file_session
           {| pump_source := CSpxWavFilePump "a.wav"; pump_state := Idle;
              pump_format := pcm16 |} 5000);
    [reflexivity | reflexivity | left; reflexivity].
Defined.

Lemma wait_ends_witness :
  (m_audioPump (microphone_session ∅)
   = Some {| pump_source := CSpxInteractiveMicrophone; pump_state := Idle;
             pump_format := pcm16 |}
   /\ GetMicrophoneTimeout (microphone_session ∅)
      = Ok 5000 (microphone_session ∅)
   /\ 5000 + 60000 < 65001)
  /\ StartStreamingAudioAndWaitForResult recognized counter_uint32 true
       TextIndependentIdentification [] [(65001, CbError "lost")]
       (microphone_session ∅)
     = Ok (Some (ErrorResult BAILED_OUT))
         (CleanupAfterEachAudioPumping
            (set_clock (clock (microphone_session ∅) + Z.max 0 (5000 + 60000))
               (started true TextIndependentIdentification []
                  {| pump_source := CSpxInteractiveMicrophone;
                     pump_state := Idle; pump_format := pcm16 |} 5000
                  (microphone_session ∅)))).
Proof.
  split; [repeat split; try reflexivity; lia|].
  refine (proj1
            (wait_ends_at_timeout_plus_one_minute recognized counter_uint32
               true TextIndependentIdentification [] []
               (microphone_session ∅)
               {| pump_source := CSpxInteractiveMicrophone; pump_state := Idle;
                  pump_format := pcm16 |} 5000 65001 _ _)
            (CbError "lost") _);
    [reflexivity | reflexivity | lia].
Defined.

Lemma earlier_channels_witness :
  exists r s',
    StartStreamingAudioAndWaitForResult recognized counter_uint32 true
      TextIndependentIdentification [] short_stream mid_cycle = Ok r s'
    /\ promises s' !! 0%nat = promises mid_cycle !! 0%nat.
Proof.
  destruct (StartStreamingAudioAndWaitForResult recognized counter_uint32 true
              TextIndependentIdentification [] short_stream mid_cycle)
    as [r s' | e s' |] eqn:H;
    [|exfalso; vm_compute in H; discriminate
     |exfalso; vm_compute in H; discriminate].
  exists r, s'. split; [reflexivity|].
  refine (streaming_call_leaves_earlier_channels recognized counter_uint32
            true TextIndependentIdentification [] short_stream mid_cycle
            {| pump_source := CSpxInteractiveMicrophone;
               pump_state := Processing; pump_format := pcm16 |} 5000 r s'
            0%nat _ _ H _);
    [reflexivity | reflexivity | simpl; lia].
Defined.

Lemma Term_throws_witness :
  (m_audioPump (resolved 0 (ErrorResult "x") mid_cycle)
   = Some {| pump_source := CSpxInteractiveMicrophone;
             pump_state := Processing; pump_format := pcm16 |}
   /\ m_audioIsDone (resolved 0 (ErrorResult "x") mid_cycle) = Some 0%nat
   /\ promises (resolved 0 (ErrorResult "x") mid_cycle) !! 0%nat
      = Some (Some (ErrorResult "x")))
  /\ Term (resolved 0 (ErrorResult "x") mid_cycle)
     = Throw future_error_promise_already_satisfied
         (log PumpStopPump
            (set_audioPump
               (Some (with_state Idle
                        {| pump_source := CSpxInteractiveMicrophone;
                           pump_state := Processing; pump_format := pcm16 |}))
               (resolved 0 (ErrorResult "x") mid_cycle))).
Proof.
  split; [repeat split; reflexivity|].
  refine (proj1
            (Term_throws_when_the_channel_is_resolved
               (resolved 0 (ErrorResult "x") mid_cycle)
               {| pump_source := CSpxInteractiveMicrophone;
                  pump_state := Processing; pump_format := pcm16 |}
               0%nat (ErrorResult "x") _ _ _ _)); reflexivity.
Defined.

Lemma Term_twice_witness :
  exists s1,
    Term mid_cycle = Ok tt s1
    /\ Term s1 = Ok tt (log ThreadServiceTerm s1).
Proof.
  destruct (Term mid_cycle) as [[] s1 | e s1 |] eqn:H;
    [|exfalso; vm_compute in H; discriminate
     |exfalso; vm_compute in H; discriminate].
  exists s1. split; [reflexivity|].
  apply (Term_twice mid_cycle s1 H).
Defined.

Lemma codec_unavailable_witness :
  (m_audioPump (initial_session ∅) = None
   /\ m_audioIsDone (initial_session ∅) = None
   /\ wFormatTag compressed <> WAVE_FORMAT_PCM)
  /\ InitFromStream {| stream_format := compressed |} false (initial_session ∅)
     = Ok tt (set_codecAdapter None (initial_session ∅)).
Proof.
  split; [repeat split; try reflexivity; discriminate|].
  refine (proj1 (proj2
            (codec_unavailable_then_streaming_reports_no_pump recognized
               counter_uint32 (initial_session ∅)
               {| stream_format := compressed |} true
               TextIndependentIdentification [] [] _ _ _)));
    [reflexivity | reflexivity | discriminate].
Defined.

Lemma stale_codec_witness :
  exists r s1,
    StartStreamingAudioAndWaitForResult recognized counter_uint32 true
      TextIndependentIdentification [] short_stream codec_session = Ok r s1
    /\ m_codecAdapter s1
       = Some {| codec_format := with_output_format 1 16 16000 compressed |}
    /\ exists s2,
         InitFromStream {| stream_format := pcm16 |} true s1 = Ok tt s2
         /\ m_audioPump s2
            = Some {| pump_source := CSpxAudioPump CodecReader;
                      pump_state := Idle;
                      pump_format :=
                        with_output_format 1 16 16000 compressed |}
         /\ trace s2 = (trace s1 ++ [PumpSetReader CodecReader])%list.
Proof.
  destruct (StartStreamingAudioAndWaitForResult recognized counter_uint32 true
              TextIndependentIdentification [] short_stream codec_session)
    as [r s1 | e s1 |] eqn:H;
    [|exfalso; vm_compute in H; discriminate
     |exfalso; vm_compute in H; discriminate].
  exists r, s1. split; [reflexivity|].
  apply (pcm_stream_after_compressed_cycle_reads_through_the_codec recognized
           counter_uint32 true TextIndependentIdentification []
           short_stream codec_session
           {| pump_source := CSpxAudioPump CodecReader; pump_state := Idle;
              pump_format := with_output_format 1 16 16000 compressed |}
           5000
           {| codec_format := with_output_format 1 16 16000 compressed |}
           r s1 {| stream_format := pcm16 |} true
           ltac:(reflexivity) ltac:(reflexivity) ltac:(reflexivity) H
           ltac:(reflexivity)).
Defined.

Lemma InitFromFile_retry_witness :
  (m_audioPump (initial_session ∅) = None
   /\ m_audioIsDone (initial_session ∅) = None)
  /\ exists s1,
       InitFromFile "missing.wav" None (initial_session ∅) = Ok tt s1
       /\ m_audioPump s1
          = Some {| pump_source := CSpxWavFilePump "missing.wav";
                    pump_state := Idle; pump_format := empty_format |}
       /\ InitFromFile_task "a.wav" (Some pcm16) s1
          = Throw (ExceptionWithCallStack SPXERR_ALREADY_INITIALIZED) s1
       /\ InitFromFile "a.wav" (Some pcm16) s1 = Ok tt s1.
Proof.
  split; [split; reflexivity|].
  apply (InitFromFile_failed_open_blocks_a_retry (initial_session ∅)
           "missing.wav" "a.wav" pcm16); reflexivity.
Defined.

Lemma CreateTask_escape_witness :
  CreateTask tt (InitFromFile_task "a.wav" (Some pcm16))
    (resolved 0 (ErrorResult "x") mid_cycle)
  = Throw future_error_promise_already_satisfied
      (resolved 0 (ErrorResult "x") mid_cycle)
  /\ future_error_promise_already_satisfied
     = future_error_promise_already_satisfied.
Proof.
  split; [reflexivity|].
  apply (proj1
           (CreateTask_lets_only_future_error_escape tt
              (InitFromFile_task "a.wav" (Some pcm16))
              (resolved 0 (ErrorResult "x") mid_cycle)
              (resolved 0 (ErrorResult "x") mid_cycle)
              future_error_promise_already_satisfied ltac:(reflexivity))).
Defined.

Lemma forwards_in_order_witness :
  (m_reco file_session <> None /\ m_fromMicrophone file_session = false)
  /\ exists s',
       process_chunks recognized counter_uint32 [chunk_of 10; chunk_of 20]
         file_session = Ok tt s'
       /\ trace s'
          = (trace file_session
             ++ map RecoProcessAudio [chunk_of 10; chunk_of 20])%list
       /\ m_totalAudioinMS s' = m_totalAudioinMS file_session
       /\ promises s' = promises file_session
       /\ m_audioIsDone s' = m_audioIsDone file_session
       /\ m_audioPump s' = m_audioPump file_session.
Proof.
  split; [split; [discriminate | reflexivity]|].
  apply (process_chunks_forwards_in_order recognized counter_uint32
           [chunk_of 10; chunk_of 20] file_session);
    [discriminate | reflexivity].
Defined.

Lemma timeout_not_reached_witness :
  (m_reco mid_cycle <> None /\ m_fromMicrophone mid_cycle = true
   /\ m_avgBytesPerSecond mid_cycle <> 0
   /\ m_audioIsDone mid_cycle = Some 0%nat
   /\ promises mid_cycle !! 0%nat = Some None
   /\ duration_reaches counter_uint32 (m_avgBytesPerSecond mid_cycle)
        (m_microphoneTimeoutInMS mid_cycle) (m_totalAudioinMS mid_cycle)
        [one_second; one_second] = false)
  /\ exists s',
       process_chunks recognized counter_uint32 [one_second; one_second]
         mid_cycle = Ok tt s'
       /\ promises s' = promises mid_cycle
       /\ m_audioIsDone s' = Some 0%nat
       /\ trace s'
          = (trace mid_cycle
             ++ map RecoProcessAudio [one_second; one_second])%list
       /\ m_totalAudioinMS s'
          = fold_left
              (fun total c =>
                 counter_add counter_uint32 total
                   (to_uint32 (size c * 1000) / m_avgBytesPerSecond mid_cycle))
              [one_second; one_second] (m_totalAudioinMS mid_cycle).
Proof.
  split; [repeat split; try reflexivity; discriminate|].
  apply (timeout_not_reached_keeps_the_channel_open recognized counter_uint32
           [one_second; one_second] mid_cycle 0%nat);
    try reflexivity; discriminate.
Defined.

Lemma timed_out_cycle_witness :
  exists r s',
    StartStreamingAudioAndWaitForResult recognized counter_uint32 true
      TextIndependentIdentification [] [] (microphone_session ∅) = Ok r s'
    /\ r = Some (ErrorResult BAILED_OUT)
    /\ m_audioIsDone s' = Some 0%nat
    /\ promises s' !! 0%nat = Some None.
Proof.
  destruct (StartStreamingAudioAndWaitForResult recognized counter_uint32 true
              TextIndependentIdentification [] [] (microphone_session ∅))
    as [r s' | e s' |] eqn:H;
    [|exfalso; vm_compute in H; discriminate
     |exfalso; vm_compute in H; discriminate].
  exists r, s'. split; [reflexivity|].
  assert (Hnone : forall v,
             promises s' !! length (promises (microphone_session ∅))
             <> Some (Some v)).
  { pose proof H as H'. vm_compute in H'. inversion H'; subst.
    intros v. discriminate. }
  destruct (timed_out_cycle_leaves_its_channel recognized counter_uint32 true
              TextIndependentIdentification [] [] (microphone_session ∅)
              {| pump_source := CSpxInteractiveMicrophone; pump_state := Idle;
                 pump_format := pcm16 |} 5000 r s' ltac:(reflexivity)
              ltac:(reflexivity) H Hnone)
    as (Hr & Hmem & Hopen & _).
  repeat split; assumption.
Defined.

Lemma resolution_after_flush_witness :
  (m_reco mid_cycle <> None /\ m_audioIsDone mid_cycle = Some 0%nat
   /\ promises mid_cycle !! 0%nat = Some None)
  /\ Error "late" (flushed recognized 0 mid_cycle)
     = Ok tt (flushed recognized 0 mid_cycle).
Proof.
  split; [repeat split; try reflexivity; discriminate|].
  apply (proj1 (proj2 (proj2
           (resolution_after_flush_is_noop recognized mid_cycle 0%nat "late"
              ltac:(discriminate) ltac:(reflexivity) ltac:(reflexivity))))).
Defined.

(** C3, as stated, fails: with a timeout property that does not parse the
    streaming call does not wait and returns no result value; the pump is
    never started and no time passes. *)
Lemma C3_unreadable_timeout_returns_no_result :
  exists s',
    StartStreamingAudioAndWaitForResult recognized counter_uint32 false
      TextIndependentVerification [] short_stream
      (microphone_session {[ MICROPHONE_TIMEOUT_PROPERTY := "soon" ]})
    = Ok None s'
    /\ clock s'
       = clock (microphone_session {[ MICROPHONE_TIMEOUT_PROPERTY := "soon" ]})
    /\ promises s' = []
    /\ trace s'
       = [RecoSetFormat pcm16 TextIndependentVerification [] false].
Proof.
  eexists. split; [vm_compute; reflexivity|]. repeat split; reflexivity.
Qed.

(** C4, as stated, fails: 160 chunks of 1000 bytes at 32000 bytes per second
    are five seconds of audio, the timeout of the cycle, yet each chunk counts
    for 31 milliseconds only, the counter ends at 4960, and nothing is flushed
    or resolved, with a counter of 32 bits and of 64 bits alike. *)
Lemma C4_five_seconds_of_audio_do_not_reach_the_timeout :
  spec_duration_ms (m_avgBytesPerSecond mid_cycle) (repeat (chunk_of 1000) 160)
  = m_microphoneTimeoutInMS mid_cycle
  /\ (exists s',
        process_chunks recognized counter_uint32 (repeat (chunk_of 1000) 160)
          mid_cycle = Ok tt s'
        /\ m_totalAudioinMS s' = 4960
        /\ promises s' = [None]
        /\ m_audioIsDone s' = Some 0%nat
        /\ count is_flush (trace s') = 0%nat
        /\ count is_set_value (trace s') = 0%nat)
  /\ (exists s',
        process_chunks recognized counter_uint64 (repeat (chunk_of 1000) 160)
          mid_cycle = Ok tt s'
        /\ m_totalAudioinMS s' = 4960
        /\ promises s' = [None]
        /\ m_audioIsDone s' = Some 0%nat
        /\ count is_flush (trace s') = 0%nat
        /\ count is_set_value (trace s') = 0%nat).
Proof.
  split; [vm_compute; reflexivity|].
  split; eexists; (split; [vm_compute; reflexivity|]);
    repeat split; vm_compute; reflexivity.
Qed.
